(** * Verification of the OI_CHARTS_PYTHON backend (pybackend/)

    Shallow embedding of
    - [calculator.py]: [_safe_float] and [calculate_indicators];
    - [database.py]:   [check_and_clear_old_data], [check_and_clear_for_url_change],
                       [save_snapshot] over an explicit SQLite store;
    - [main.py]:       [_is_market_hours] and [scheduled_fetch].

    Python floats are Rocq primitive binary64 floats ([PrimFloat]); the
    arithmetic of the source ([+], [-], [*], [/], [>], [!=]) is the IEEE one.
    Python exceptions are an explicit [result] type. The wall clock is an
    explicit argument: Unix seconds in UTC. *)

From Stdlib Require Import ZArith List String Ascii Bool Lia.
From Stdlib Require Import PrimFloat Floats Uint63.
From Stdlib Require Import Sorted Permutation OrdersEx.
Import ListNotations.

(** ** Python values as they come out of [json.loads] *)

#[local] Set Warnings "-register-all".
Inductive json : Type :=
| JNull
| JBool (b : bool)
| JInt (z : Z)
| JFloat (f : float)
| JStr (s : string)
| JList (l : list json)
| JObj (kv : list (string * json)).

(** The Python exceptions that the modelled code can raise. *)
Inductive exc : Type :=
| TypeError
| ValueError
| OverflowError
| AttributeError.

Inductive result (A : Type) : Type :=
| Ok (a : A)
| Raise (e : exc).
Arguments Ok {A} a.
Arguments Raise {A} e.

Definition bind {A B} (m : result A) (k : A -> result B) : result B :=
  match m with
  | Ok a => k a
  | Raise e => Raise e
  end.

Notation "x <- m ;; k" := (bind m (fun x => k))
  (at level 61, m at next level, right associativity).

(** A dict built by [json.loads]: a later duplicate key overrides an earlier one. *)
Fixpoint dict_lookup (k : string) (kv : list (string * json)) : option json :=
  match kv with
  | [] => None
  | (k', v) :: r =>
      match dict_lookup k r with
      | Some w => Some w
      | None => if String.eqb k k' then Some v else None
      end
  end.

(** [d.get(k, default)]; on anything but a dict the attribute lookup fails. *)
Definition py_get (d : json) (k : string) (default : json) : result json :=
  match d with
  | JObj kv => Ok (match dict_lookup k kv with Some v => v | None => default end)
  | _ => Raise AttributeError
  end.

Definition empty_dict : json := JObj [].

(** ** [float(x)] *)

(** [float(int)] (CPython's [PyLong_AsDouble]): round to nearest, ties to
    even, on 53 bits; [OverflowError] when the rounded value reaches [2^1024]. *)
Definition int_to_float (z : Z) : result float :=
  let a := Z.abs z in
  let sign (f : float) := if (z <? 0)%Z then PrimFloat.opp f else f in
  if (a <? 2 ^ 53)%Z then Ok (sign (PrimFloat.of_uint63 (Uint63.of_Z a)))
  else
    let sh := (Z.log2 a - 52)%Z in
    let q := Z.shiftr a sh in
    let r := (a - Z.shiftl q sh)%Z in
    let half := Z.shiftl 1 (sh - 1) in
    let q' := if (half <? r)%Z || ((r =? half)%Z && Z.odd q) then (q + 1)%Z else q in
    if (2 ^ 1024 <=? Z.shiftl q' sh)%Z then Raise OverflowError
    else Ok (sign (Z.ldexp (PrimFloat.of_uint63 (Uint63.of_Z q')) sh)).

Section Calculator.

(** CPython's [float(str)] parser: [None] is its [ValueError]. It never
    raises anything else (an out-of-range literal gives [inf]). *)
Variable parse_float : string -> option float.

(** [float(val)] on the values [json.loads] produces. *)
Definition py_float (v : json) : result float :=
  match v with
  | JNull => Raise TypeError
  | JBool b => Ok (if b then 1%float else 0%float)
  | JInt z => int_to_float z
  | JFloat f => Ok f
  | JStr s => match parse_float s with Some f => Ok f | None => Raise ValueError end
  | JList _ | JObj _ => Raise TypeError
  end.

(** [_safe_float(val, default)]: [except (TypeError, ValueError): return default]. *)
Definition _safe_float (v : json) (default : float) : result float :=
  match py_float v with
  | Ok f => Ok f
  | Raise TypeError => Ok default
  | Raise ValueError => Ok default
  | Raise e => Raise e
  end.

(** The accumulators of the loop of [calculate_indicators]. *)
Record acc : Type := mkAcc {
  a_total_ce_oi_value : float;
  a_total_pe_oi_value : float;
  a_total_ce_oi_value_2 : float;
  a_total_pe_oi_value_2 : float;
  a_total_ce_oi_change_value : float;
  a_total_pe_oi_change_value : float;
  a_total_ce_trade_value : float;
  a_total_pe_trade_value : float;
  a_total_ce_oi : float;
  a_total_pe_oi : float;
  a_total_ce_chg : float;
  a_total_pe_chg : float;
  a_total_ce_vol : float;
  a_total_pe_vol : float;
  a_underlying : float
}.

Definition acc0 : acc :=
  mkAcc 0 0 0 0 0 0 0 0 0 0 0 0 0 0 0.

(** The market-data fields of one side, in the order the source reads them. *)
Record side : Type := mkSide { s_oi : float; s_prev_oi : float; s_ltp : float; s_vol : float }.

(** [row.get(key, {}).get("market_data", {})] and the four [_safe_float] reads. *)
Definition read_side (row : json) (key : string) : result side :=
  o <- py_get row key empty_dict ;;
  md <- py_get o "market_data" empty_dict ;;
  v_oi <- py_get md "oi" (JInt 0) ;; oi <- _safe_float v_oi 0 ;;
  v_prev <- py_get md "prev_oi" (JInt 0) ;; prev <- _safe_float v_prev 0 ;;
  v_ltp <- py_get md "ltp" (JInt 0) ;; ltp <- _safe_float v_ltp 0 ;;
  v_vol <- py_get md "volume" (JInt 0) ;; vol <- _safe_float v_vol 0 ;;
  Ok (mkSide oi prev ltp vol).

(** Python truthiness of a float: nonzero ([nan] is truthy). *)
Definition truthy (f : float) : bool := negb (PrimFloat.eqb f 0).

(** One iteration of [for row in rows:]. *)
Definition row_step (a : acc) (row : json) : result acc :=
  v_spot <- py_get row "underlying_spot_price" (JInt 0) ;;
  spot <- _safe_float v_spot 0 ;;
  let underlying :=
    if truthy spot && negb (truthy (a_underlying a)) then spot else a_underlying a in
  c <- read_side row "call_options" ;;
  let ce_oi_change := (s_oi c - s_prev_oi c)%float in
  p <- read_side row "put_options" ;;
  let pe_oi_change := (s_oi p - s_prev_oi p)%float in
  Ok (mkAcc
    (a_total_ce_oi_value a + s_oi c * s_ltp c)%float
    (a_total_pe_oi_value a + s_oi p * s_ltp p)%float
    (if PrimFloat.ltb 0 (s_vol c)
     then (a_total_ce_oi_value_2 a + s_oi c * s_ltp c)%float
     else a_total_ce_oi_value_2 a)
    (if PrimFloat.ltb 0 (s_vol p)
     then (a_total_pe_oi_value_2 a + s_oi p * s_ltp p)%float
     else a_total_pe_oi_value_2 a)
    (a_total_ce_oi_change_value a + ce_oi_change * s_ltp c)%float
    (a_total_pe_oi_change_value a + pe_oi_change * s_ltp p)%float
    (a_total_ce_trade_value a + s_vol c * s_ltp c)%float
    (a_total_pe_trade_value a + s_vol p * s_ltp p)%float
    (a_total_ce_oi a + s_oi c)%float
    (a_total_pe_oi a + s_oi p)%float
    (a_total_ce_chg a + ce_oi_change)%float
    (a_total_pe_chg a + pe_oi_change)%float
    (a_total_ce_vol a + s_vol c)%float
    (a_total_pe_vol a + s_vol p)%float
    underlying).

Fixpoint run_rows (a : acc) (rows : list json) : result acc :=
  match rows with
  | [] => Ok a
  | row :: rest => a' <- row_step a row ;; run_rows a' rest
  end.

(** The dict returned by [calculate_indicators]. *)
Record indicators : Type := mkInd {
  underlying : float;
  nifty_price : float;
  total_ce_oi_value : float;
  total_pe_oi_value : float;
  total_ce_oi_value_2 : float;
  total_pe_oi_value_2 : float;
  total_ce_oi_change_value : float;
  total_pe_oi_change_value : float;
  total_ce_trade_value : float;
  total_pe_trade_value : float;
  diff_oi_value : float;
  ratio_oi_value : float;
  diff_oi_value_2 : float;
  ratio_oi_value_2 : float;
  diff_trade_value : float;
  test_value : float;
  ce_oi : float;
  pe_oi : float;
  ce_chg_oi : float;
  pe_chg_oi : float;
  ce_vol : float;
  pe_vol : float
}.

(** [x / y if y != 0 else 0.0] *)
Definition ratio_or_zero (x y : float) : float :=
  if negb (PrimFloat.eqb y 0) then (x / y)%float else 0%float.

Definition finish (a : acc) : indicators :=
  mkInd (a_underlying a) (a_underlying a)
    (a_total_ce_oi_value a) (a_total_pe_oi_value a)
    (a_total_ce_oi_value_2 a) (a_total_pe_oi_value_2 a)
    (a_total_ce_oi_change_value a) (a_total_pe_oi_change_value a)
    (a_total_ce_trade_value a) (a_total_pe_trade_value a)
    (a_total_ce_oi_value a - a_total_pe_oi_value a)%float
    (ratio_or_zero (a_total_ce_oi_value a) (a_total_pe_oi_value a))
    (a_total_ce_oi_value_2 a - a_total_pe_oi_value_2 a)%float
    (ratio_or_zero (a_total_ce_oi_value_2 a) (a_total_pe_oi_value_2 a))
    (a_total_ce_trade_value a - a_total_pe_trade_value a)%float
    0%float
    (a_total_ce_oi a) (a_total_pe_oi a)
    (a_total_ce_chg a) (a_total_pe_chg a)
    (a_total_ce_vol a) (a_total_pe_vol a).

(** [api_response.get("status") != "success"] *)
Definition status_ok (status : json) : bool :=
  match status with
  | JStr s => String.eqb s "success"
  | _ => false
  end.

Definition calculate_indicators (api_response : json) : result indicators :=
  status <- py_get api_response "status" JNull ;;
  if negb (status_ok status) then Raise ValueError else
  data <- py_get api_response "data" (JList []) ;;
  match data with
  | JList rows => a <- run_rows acc0 rows ;; Ok (finish a)
  | _ => Raise ValueError
  end.

End Calculator.

(** ** Clock and [strftime] *)

Module Clock.
Open Scope Z_scope.

(** Proleptic Gregorian (year, month, day) of the day number [z] counted
    from 1970-01-01, as [datetime] computes it (closed form of the ordinal
    to year-month-day conversion). *)
Definition civil_from_days (z : Z) : Z * Z * Z :=
  let z' := z + 719468 in
  let era := z' / 146097 in
  let doe := z' - era * 146097 in
  let yoe := (doe - doe / 1460 + doe / 36524 - doe / 146096) / 365 in
  let doy := doe - (365 * yoe + yoe / 4 - yoe / 100) in
  let mp := (5 * doy + 2) / 153 in
  let d := doy - (153 * mp + 2) / 5 + 1 in
  let m := if mp <? 10 then mp + 3 else mp - 9 in
  let y := yoe + era * 400 in
  (if m <=? 2 then y + 1 else y, m, d).

(** One decimal digit character. *)
Definition digit (n : Z) : ascii := ascii_of_nat (48 + Z.to_nat (n mod 10)).

(** [%m %d %H %M %S]: two digits, zero padded. *)
Definition pad2 (n : Z) : string :=
  String (digit (n / 10)) (String (digit n) EmptyString).

(** [%Y]: four digits (the years 1000-9999 a clock reading falls in). *)
Definition pad4 (n : Z) : string :=
  String (digit (n / 1000)) (String (digit (n / 100))
    (String (digit (n / 10)) (String (digit n) EmptyString))).

(** [dt.strftime("%Y-%m-%d")] for the instant [t] seconds after the epoch. *)
Definition fmt_date (t : Z) : string :=
  let '(y, m, d) := civil_from_days (t / 86400) in
  (pad4 y ++ "-" ++ pad2 m ++ "-" ++ pad2 d)%string.

Definition hour (t : Z) : Z := (t mod 86400) / 3600.
Definition minute (t : Z) : Z := (t mod 3600) / 60.
Definition second (t : Z) : Z := t mod 60.

(** [now.strftime("%Y-%m-%dT%H:%M:%SZ")] *)
Definition ts_str (t : Z) : string :=
  (fmt_date t ++ "T" ++ pad2 (hour t) ++ ":" ++ pad2 (minute t) ++ ":"
     ++ pad2 (second t) ++ "Z")%string.

(** [now.strftime("%Y-%m-%dT%H:%M")] *)
Definition minute_bucket (t : Z) : string :=
  (fmt_date t ++ "T" ++ pad2 (hour t) ++ ":" ++ pad2 (minute t))%string.

(** [_IST = timedelta(hours=5, minutes=30)] *)
Definition _IST : Z := 19800.

(** database.py [_today_ist()] *)
Definition _today_ist (t : Z) : string := fmt_date (t + _IST).

End Clock.

(** ** SQLite *)

Module Sql.

(** [sqlite3UpperToLower] on ASCII. *)
Definition lower (c : ascii) : ascii :=
  let n := nat_of_ascii c in
  if (65 <=? n)%nat && (n <=? 90)%nat then ascii_of_nat (n + 32) else c.

Definition eq_ci (c d : ascii) : bool := Ascii.eqb (lower c) (lower d).

(** [s LIKE p] with no ESCAPE clause: [%] matches any run of characters,
    [_] any one character, every other character itself up to ASCII case. *)
Fixpoint like (p s : string) : bool :=
  match p with
  | EmptyString => match s with EmptyString => true | String _ _ => false end
  | String c p' =>
      if Ascii.eqb c "%"%char then
        (fix star (s : string) : bool :=
           like p' s || match s with EmptyString => false | String _ s' => star s' end) s
      else
        match s with
        | EmptyString => false
        | String d s' => (Ascii.eqb c "_"%char || eq_ci c d) && like p' s'
        end
  end.

End Sql.

(** ** The store ([database.py]) *)

Module Store.
Import Clock.

(** Futures columns; [ind.get("fut_...", 0)] gives 0 when absent. *)
Record fut_indicators : Type := mkFut {
  fut_ltp : float; fut_atp : float; fut_oi : float; fut_volume : float;
  fut_total_buy_qty : float; fut_total_sell_qty : float;
  fut_oi_value_ltp : float; fut_oi_value_atp : float;
  fut_trade_val_ltp : float; fut_trade_val_atp : float
}.

Definition no_fut : fut_indicators := mkFut 0 0 0 0 0 0 0 0 0 0.

(** A row of [snapshots]; [raw] is the payload whose [json.dumps] fills [raw_json]. *)
Record snapshot : Type := mkSnap {
  snap_id : Z;
  snap_timestamp : string;
  snap_date : string;
  snap_ind : indicators;
  snap_fut : fut_indicators;
  snap_raw : json
}.

(** The database file: [snapshots] in rowid order, the AUTOINCREMENT counter
    ([sqlite_sequence]) and the [metadata] key/value table. *)
Record store : Type := mkStore {
  snapshots : list snapshot;
  seq : Z;
  metadata : list (string * string)
}.

Definition meta_get (m : list (string * string)) (k : string) : option string :=
  match find (fun kv => String.eqb (fst kv) k) m with
  | Some (_, v) => Some v
  | None => None
  end.

(** [UPDATE metadata SET value = ? WHERE key = k] *)
Definition meta_update (m : list (string * string)) (k v : string) : list (string * string) :=
  map (fun kv => if String.eqb (fst kv) k then (k, v) else kv) m.

(** [INSERT OR IGNORE INTO metadata (key, value) VALUES (k, v)] *)
Definition meta_insert_or_ignore (m : list (string * string)) (k v : string) :=
  match meta_get m k with Some _ => m | None => m ++ [(k, v)] end.

(** [DELETE FROM snapshots] (the AUTOINCREMENT counter is kept). *)
Definition delete_snapshots (st : store) : store :=
  mkStore [] (seq st) (metadata st).

(** The metadata rows [init_db] creates. *)
Definition init_db (st : store) : store :=
  let m := metadata st in
  let m := meta_insert_or_ignore m "current_url" "" in
  let m := meta_insert_or_ignore m "current_date" "" in
  let m := meta_insert_or_ignore m "session_token" "" in
  let m := meta_insert_or_ignore m "session_expiry_date" "" in
  mkStore (snapshots st) (seq st) m.

(** [SELECT DISTINCT date FROM snapshots ORDER BY date DESC LIMIT 1] *)
Fixpoint max_date (rows : list snapshot) : option string :=
  match rows with
  | [] => None
  | r :: rs =>
      match max_date rs with
      | None => Some (snap_date r)
      | Some d => if (d <? snap_date r)%string then Some (snap_date r) else Some d
      end
  end.

(** [check_and_clear_old_data()] at instant [t]. *)
Definition check_and_clear_old_data (st : store) (t : Z) : store * bool :=
  match max_date (snapshots st) with
  | Some d => if negb (String.eqb d (_today_ist t)) then (delete_snapshots st, true) else (st, false)
  | None => (st, false)
  end.

(** [check_and_clear_for_url_change(new_url)] *)
Definition check_and_clear_for_url_change (st : store) (new_url : string) : store * bool :=
  let current_url := match meta_get (metadata st) "current_url" with Some v => v | None => ""%string end in
  if negb (String.eqb current_url "") && negb (String.eqb current_url new_url) then
    let st1 := delete_snapshots st in
    (mkStore (snapshots st1) (seq st1) (meta_update (metadata st1) "current_url" new_url), true)
  else
    (mkStore (snapshots st) (seq st) (meta_update (metadata st) "current_url" new_url), false).

Record save_result : Type := mkSaved {
  res_id : Z; res_timestamp : string; res_date : string; already_existed : bool
}.

Definition max_id (rows : list snapshot) : Z :=
  fold_right (fun r m => Z.max (snap_id r) m) 0%Z rows.

(** [SELECT id, timestamp, date FROM snapshots WHERE timestamp LIKE bucket || '%'],
    first row in rowid order ([fetchone]). *)
Definition lookup_bucket (rows : list snapshot) (bucket : string) : option snapshot :=
  find (fun r => Sql.like (bucket ++ "%") (snap_timestamp r)) rows.

(** [save_snapshot(ind, raw)] at instant [t]; [fut] are the futures keys of [ind]. *)
Definition save_snapshot (st : store) (t : Z) (ind : indicators) (fut : fut_indicators)
    (raw : json) : store * save_result :=
  let st1 := fst (check_and_clear_old_data st t) in
  let ts := ts_str t in
  let bucket := minute_bucket t in
  let date := fmt_date t in
  match lookup_bucket (snapshots st1) bucket with
  | Some r => (st1, mkSaved (snap_id r) (snap_timestamp r) (snap_date r) true)
  | None =>
      let row_id := (Z.max (seq st1) (max_id (snapshots st1)) + 1)%Z in
      (mkStore (snapshots st1 ++ [mkSnap row_id ts date ind fut raw]) row_id (metadata st1),
       mkSaved row_id ts date false)
  end.

End Store.

(** ** The scheduler ([main.py], [session.py]) *)

Module Scheduler.
Import Clock Store.
Open Scope Z_scope.

(** [_now_ist().weekday()]: Monday = 0; 1970-01-01 was a Thursday. *)
Definition ist_weekday (t : Z) : Z := ((t + _IST) / 86400 + 3) mod 7.

(** [now.hour * 60 + now.minute] of [_now_ist()]. *)
Definition ist_hm (t : Z) : Z := hour (t + _IST) * 60 + minute (t + _IST).

(** [_is_market_hours()] at instant [t]. *)
Definition _is_market_hours (t : Z) : bool :=
  if 5 <=? ist_weekday t then false
  else (9 * 60 + 14 <=? ist_hm t) && (ist_hm t <=? 15 * 60 + 31).

(** The [_state] dict of session.py. *)
Record session : Type := mkSession { token : option string; expiry_date : option string }.

(** [session_ready()]: [bool(_state.get("expiry_date"))]. *)
Definition session_ready (s : session) : bool :=
  match expiry_date s with
  | Some e => negb (String.eqb e "")
  | None => false
  end.

(** What one run of the job did, in order. *)
Inductive event : Type :=
| Fetched (expiry : string) (tok : option string)
| Saved (id : Z)
| Dedup (ts : string)
| Logged (e : exc).

Section Job.
Variable parse_float : string -> option float.

(** [fetch_with_retry(lambda: fetch_option_chain(...))]: the vendor call
    (with its retries) is external; it returns the decoded payload or raises. *)
Variable fetch_option_chain : string -> option string -> result json.

(** [scheduled_fetch()] at instant [t] with session [sess] on store [st]. *)
Definition scheduled_fetch (sess : session) (st : store) (t : Z) : store * list event :=
  if negb (_is_market_hours t) then (st, [])
  else if negb (session_ready sess) then (st, [])
  else
    let e := match expiry_date sess with Some e => e | None => ""%string end in
    let fetched := Fetched e (token sess) in
    match fetch_option_chain e (token sess) with
    | Raise x => (st, [fetched; Logged x])
    | Ok api_resp =>
        match calculate_indicators parse_float api_resp with
        | Raise x => (st, [fetched; Logged x])
        | Ok ind =>
            let '(st', r) := save_snapshot st t ind no_fut api_resp in
            if already_existed r then (st', [fetched; Dedup (res_timestamp r)])
            else (st', [fetched; Saved (res_id r)])
        end
    end.

End Job.
End Scheduler.

(** ** Well-formed option-chain rows and sample inputs *)

Module Samples.
Open Scope string_scope.

(** [d.get(k, default)] on a dict. *)
Definition dict_get (kv : list (string * json)) (k : string) (default : json) : json :=
  match dict_lookup k kv with Some v => v | None => default end.

(** [float(v)] cannot overflow: every JSON value but an integer of
    magnitude [2^1024 - 2^970] or more. *)
Definition float_convertible (v : json) : bool :=
  match v with
  | JInt z => (Z.abs z <? 2 ^ 1024 - 2 ^ 970)%Z
  | _ => true
  end.

Definition wf_market_data (md : json) : bool :=
  match md with
  | JObj kv => forallb (fun k => float_convertible (dict_get kv k (JInt 0)))
                 ["oi"; "prev_oi"; "ltp"; "volume"]
  | _ => false
  end.

Definition wf_side (o : json) : bool :=
  match o with
  | JObj kv => wf_market_data (dict_get kv "market_data" empty_dict)
  | _ => false
  end.

(** A well-formed strike row: a dict; its [call_options] and [put_options],
    when present, are dicts whose [market_data], when present, is a dict; the
    numeric fields read are convertible by [float()]. *)
Definition wf_row (row : json) : bool :=
  match row with
  | JObj kv =>
      float_convertible (dict_get kv "underlying_spot_price" (JInt 0))
      && wf_side (dict_get kv "call_options" empty_dict)
      && wf_side (dict_get kv "put_options" empty_dict)
  | _ => false
  end.

Definition is_list (v : json) : bool :=
  match v with JList _ => true | _ => false end.

(** A [float(str)] that rejects every string. *)
Definition no_strings : string -> option float := fun _ => None.

Definition market_data (oi prev ltp vol : Z) : json :=
  JObj [("market_data", JObj [("oi", JInt oi); ("prev_oi", JInt prev);
                               ("ltp", JInt ltp); ("volume", JInt vol)])].

(** The two-strike payload of the spec's worked example. *)
Definition two_strikes_kv : list (string * json) :=
  [("status", JStr "success"); ("data", JList [
    JObj [("underlying_spot_price", JFloat 22000%float);
          ("call_options", market_data 100 90 10 5); ("put_options", market_data 40 50 12 7)];
    JObj [("underlying_spot_price", JFloat 22000%float);
          ("call_options", market_data 50 50 8 3); ("put_options", market_data 60 60 9 2)]])].

Definition two_strikes : json := JObj two_strikes_kv.

Definition empty_chain : json :=
  JObj [("status", JStr "success"); ("data", JList [])].

Definition zero_indicators : indicators :=
  mkInd 0 0 0 0 0 0 0 0 0 0 0 0 0 0 0 0 0 0 0 0 0 0.

(** 2026-02-27T04:15:00Z, 04:15:30Z, 04:16:00Z, and 2026-02-27T20:00:00Z
    (2026-02-28T01:30 in UTC+5:30). *)
Definition t_0415 : Z := 1772165700.
Definition t_041530 : Z := 1772165730.
Definition t_0416 : Z := 1772165760.
Definition t_2000 : Z := 1772222400.

Definition empty_store : Store.store := Store.init_db (Store.mkStore [] 0 []).

End Samples.

(** ** Futures indicators ([calculator.py]) *)

Module Future.
Import Store.

(** Python truthiness of a value [json.loads] produces ([bool(v)]). *)
Definition json_truthy (v : json) : bool :=
  match v with
  | JNull => false
  | JBool b => b
  | JInt z => negb (z =? 0)%Z
  | JFloat f => truthy f
  | JStr s => negb (String.eqb s "")
  | JList l => match l with [] => false | _ => true end
  | JObj kv => match kv with [] => false | _ => true end
  end.

Section Future.
Variable parse_float : string -> option float.

(** [float(future_quote.get(k, 0) or 0)] *)
Definition float_or_zero (future_quote : json) (k : string) : result float :=
  v <- py_get future_quote k (JInt 0) ;;
  py_float parse_float (if json_truthy v then v else JInt 0).

(** [calculate_future_indicators(future_quote)] *)
Definition calculate_future_indicators (future_quote : json) : result fut_indicators :=
  ltp <- float_or_zero future_quote "ltp" ;;
  atp <- float_or_zero future_quote "atp" ;;
  oi <- float_or_zero future_quote "oi" ;;
  volume <- float_or_zero future_quote "volume" ;;
  buy_q <- float_or_zero future_quote "total_buy_qty" ;;
  sell_q <- float_or_zero future_quote "total_sell_qty" ;;
  Ok (mkFut ltp atp oi volume buy_q sell_q
        (oi * ltp)%float (oi * atp)%float (volume * ltp)%float (volume * atp)%float).

End Future.

(** The six keys [calculate_future_indicators] reads. *)
Definition future_keys : list string :=
  ["ltp"; "atp"; "oi"; "volume"; "total_buy_qty"; "total_sell_qty"]%string.

End Future.

(** ** Row shapes of the option chain *)

Module RowShapes.
Import Samples.

Section Spot.
Variable parse_float : string -> option float.

(** [_safe_float(row.get("underlying_spot_price", 0))] *)
Definition spot_of (row : json) : result float :=
  v <- py_get row "underlying_spot_price" (JInt 0) ;; _safe_float parse_float v 0.

End Spot.

(** What [if spot and not underlying: underlying = spot] keeps over a run
    started at [d]: the first truthy spot, or [d] when there is none. *)
Fixpoint first_truthy (d : float) (spots : list float) : float :=
  match spots with
  | [] => d
  | s :: rest => if truthy s then s else first_truthy d rest
  end.

Definition is_dict (v : json) : bool :=
  match v with JObj _ => true | _ => false end.

(** [o.get("market_data", {})] can be read: [o] is a dict and its
    [market_data], when present, is a dict. *)
Definition shape_side (o : json) : bool :=
  match o with
  | JObj kv => is_dict (dict_get kv "market_data" empty_dict)
  | _ => false
  end.

(** A row the loop can walk without an attribute lookup on a non-dict. *)
Definition shape_row (row : json) : bool :=
  match row with
  | JObj kv => shape_side (dict_get kv "call_options" empty_dict)
               && shape_side (dict_get kv "put_options" empty_dict)
  | _ => false
  end.

(** The numeric fields that are present convert without overflow. *)
Definition conv_md (md : json) : bool :=
  match md with
  | JObj kv => forallb (fun k => float_convertible (dict_get kv k (JInt 0)))
                 ["oi"; "prev_oi"; "ltp"; "volume"]%string
  | _ => true
  end.

Definition conv_side (o : json) : bool :=
  match o with
  | JObj kv => conv_md (dict_get kv "market_data" empty_dict)
  | _ => true
  end.

Definition conv_row (row : json) : bool :=
  match row with
  | JObj kv => float_convertible (dict_get kv "underlying_spot_price" (JInt 0))
               && conv_side (dict_get kv "call_options" empty_dict)
               && conv_side (dict_get kv "put_options" empty_dict)
  | _ => true
  end.

End RowShapes.

(** ** Session persistence ([database.py], [session.py], [main.py]) *)

Module Sessions.
Import Store Scheduler.

(** [x or ""] on a [str | None] *)
Definition or_empty (o : option string) : string :=
  match o with Some s => s | None => ""%string end.

(** [x or None] on a [str | None] *)
Definition or_none (o : option string) : option string :=
  match o with
  | Some s => if String.eqb s "" then None else Some s
  | None => None
  end.

(** [persist_session(token, expiry_date)] *)
Definition persist_session (st : store) (tok exp : option string) : store :=
  let m := meta_update (metadata st) "session_token" (or_empty tok) in
  let m := meta_update m "session_expiry_date" (or_empty exp) in
  mkStore (snapshots st) (seq st) m.

(** [load_persisted_session()]: the pair ([token], [expiry_date]). *)
Definition load_persisted_session (st : store) : option string * option string :=
  (or_none (meta_get (metadata st) "session_token"),
   or_none (meta_get (metadata st) "session_expiry_date")).

(** The module-level [_state] of session.py at import. *)
Definition fresh_session : session := mkSession None None.

(** [set_session(token, expiry_date)]: the new [_state] and the store after
    [persist_session]. *)
Definition set_session (st : store) (tok exp : option string) : session * store :=
  (mkSession (or_none tok) (or_none exp), persist_session st tok exp).

(** [restore_session_from_db()] on the state [sess]. *)
Definition restore_session_from_db (sess : session) (st : store) : session * bool :=
  let '(tok, exp) := load_persisted_session st in
  match exp with
  | Some e => if negb (String.eqb e "") then (mkSession tok exp, true) else (sess, false)
  | None => (sess, false)
  end.

(** The start of main.py: [init_db()], then [restore_session_from_db()] in a
    fresh process. *)
Definition startup (st : store) : session * store * bool :=
  let st1 := init_db st in
  let '(sess, restored) := restore_session_from_db fresh_session st1 in
  (sess, st1, restored).

End Sessions.

(** ** Any sequence of store calls *)

Module StoreOps.
Import Clock Store.

Inductive store_op : Type :=
| OpInit
| OpClearOld (t : Z)
| OpUrlChange (new_url : string)
| OpPersist (tok exp : option string)
| OpSave (t : Z) (ind : indicators) (fut : fut_indicators) (raw : json).

Definition apply_op (st : store) (op : store_op) : store * option save_result :=
  match op with
  | OpInit => (init_db st, None)
  | OpClearOld t => (fst (check_and_clear_old_data st t), None)
  | OpUrlChange u => (fst (check_and_clear_for_url_change st u), None)
  | OpPersist tok exp => (Sessions.persist_session st tok exp, None)
  | OpSave t ind fut raw =>
      let '(st', r) := save_snapshot st t ind fut raw in (st', Some r)
  end.

(** The store after the calls [ops], and what each [save_snapshot] returned. *)
Fixpoint run_ops (st : store) (ops : list store_op) : store * list save_result :=
  match ops with
  | [] => (st, [])
  | op :: rest =>
      let '(st1, r) := apply_op st op in
      let '(st2, rs) := run_ops st1 rest in
      (st2, match r with Some x => x :: rs | None => rs end)
  end.

(** [row["timestamp"][:16]]: the minute bucket of a stored timestamp. *)
Definition bucket_key (r : snapshot) : string := substring 0 16 (snap_timestamp r).

(** What the table keeps: every timestamp written by [strftime], at most one
    row per minute bucket, ids increasing in rowid order and not above the
    AUTOINCREMENT counter. *)
Definition store_ok (st : store) : Prop :=
  Forall (fun r => exists t, snap_timestamp r = ts_str t) (snapshots st) /\
  NoDup (map bucket_key (snapshots st)) /\
  StronglySorted Z.lt (map snap_id (snapshots st)) /\
  Forall (fun r => (snap_id r <= seq st)%Z) (snapshots st).

(** The ids of the rows the saves inserted. *)
Definition inserted_ids (rs : list save_result) : list Z :=
  map res_id (filter (fun r => negb (already_existed r)) rs).

End StoreOps.

(** ** [fetch_with_retry] ([main.py]) *)

Module Retry.
Open Scope Z_scope.

Section Retry.
(** The values [fn()] returns and the exceptions it raises. *)
Variables A E : Type.

(** One call of [fn()]: it returns, or raises [e] whose
    [getattr(e, 'retry_after', None)] is [retry_after]. *)
Inductive attempt : Type :=
| Returned (v : A)
| Raised (e : E) (retry_after : option Z).

Inductive outcome : Type :=
| RetValue (v : A)
| RetNone
| Reraised (e : E).

(** [retry_after if retry_after else (2 ** i)] *)
Definition wait_for (retry_after : option Z) (i : nat) : Z :=
  match retry_after with
  | Some w => if w =? 0 then 2 ^ Z.of_nat i else w
  | None => 2 ^ Z.of_nat i
  end.

(** The loop from iteration [i] with [n] iterations of [range(retries)] left;
    [fn i] is what the [i]-th call of [fn()] does. Returns the outcome and the
    [time.sleep] arguments in order. *)
Fixpoint retry_from (fn : nat -> attempt) (retries i n : nat) : outcome * list Z :=
  match n with
  | O => (RetNone, [])
  | S n' =>
      match fn i with
      | Returned v => (RetValue v, [])
      | Raised e ra =>
          let wait := wait_for ra i in
          if Nat.eqb i (retries - 1) then (Reraised e, [])
          else let '(o, sleeps) := retry_from fn retries (S i) n' in (o, wait :: sleeps)
      end
  end.

(** [fetch_with_retry(fn, retries)] *)
Definition fetch_with_retry (fn : nat -> attempt) (retries : nat) : outcome * list Z :=
  retry_from fn retries 0 retries.

End Retry.

Arguments Returned {A E} v.
Arguments Raised {A E} e retry_after.
Arguments RetValue {A E} v.
Arguments RetNone {A E}.
Arguments Reraised {A E} e.

(** [getattr(e, 'retry_after', None)] of a call that raised. *)
Definition retry_hint {A E : Type} (a : attempt A E) : option Z :=
  match a with Returned _ => None | Raised _ ra => ra end.

End Retry.

(** ** Routes ([routes/connect.py], [routes/indicators.py]) *)

Module Routes.
Import Clock Store Scheduler Future Sessions.
Open Scope string_scope.

(** [str.isspace()] on one character, the characters being the code points
    below 256. *)
Definition py_isspace (c : ascii) : bool :=
  let n := nat_of_ascii c in
  ((9 <=? n) && (n <=? 13))%nat || ((28 <=? n) && (n <=? 32))%nat
  || (n =? 133)%nat || (n =? 160)%nat.

Fixpoint lstrip (s : string) : string :=
  match s with
  | EmptyString => EmptyString
  | String c s' => if py_isspace c then lstrip s' else s
  end.

Fixpoint rstrip (s : string) : string :=
  match s with
  | EmptyString => EmptyString
  | String c s' =>
      match rstrip s' with
      | EmptyString => if py_isspace c then EmptyString else String c EmptyString
      | r => String c r
      end
  end.

(** [s.strip()] *)
Definition py_strip (s : string) : string := rstrip (lstrip s).

(** [request.get_json(silent=True) or {}]; [None] is a body that is not JSON. *)
Definition request_body (body : option json) : json :=
  match body with
  | Some v => if json_truthy v then v else empty_dict
  | None => empty_dict
  end.

(** [(body.get(k, "") or "").strip()] *)
Definition body_str (body : json) (k : string) : result string :=
  v <- py_get body k (JStr "") ;;
  match (if json_truthy v then v else JStr "") with
  | JStr s => Ok (py_strip s)
  | _ => Raise AttributeError
  end.

(** [f"...{token[-4:]}" if token and len(token) > 4 else "env"] *)
Definition masked_token (token : string) : string :=
  if negb (String.eqb token "") && (4 <? String.length token)%nat
  then "..." ++ substring (String.length token - 4) 4 token
  else "env".

Definition source_identifier (expiry_date token : string) : string :=
  "upstox|Nifty 50|" ++ expiry_date ++ "|" ++ masked_token token.

(** The JSON answers of [connect()]. *)
Inductive connect_response : Type :=
| MissingExpiry
| Connected (cleared : bool).

(** [POST /api/connect]: the new [_state], the store and the answer; an
    exception is the 500 answer of the app's error handler. *)
Definition connect (sess : session) (st : store) (body : option json)
    : result (session * store * connect_response) :=
  let b := request_body body in
  token <- body_str b "token" ;;
  expiry_date <- body_str b "expiry_date" ;;
  if String.eqb expiry_date "" then Ok (sess, st, MissingExpiry)
  else
    let '(st1, was_cleared) :=
      check_and_clear_for_url_change st (source_identifier expiry_date token) in
    let '(sess2, st2) :=
      set_session st1 (if String.eqb token "" then None else Some token) (Some expiry_date) in
    Ok (sess2, st2, Connected was_cleared).

(** routes/indicators.py [_today()]: the UTC date. *)
Definition _today (t : Z) : string := fmt_date t.

(** [_parse_date(request)]; [arg] is the [date] query argument. *)
Definition _parse_date (arg : option string) (t : Z) : string :=
  match arg with
  | Some d => if (String.length d =? 10)%nat then d else _today t
  | None => _today t
  end.

(** [ORDER BY timestamp ASC] (an insertion sort; equal timestamps keep
    rowid order). *)
Fixpoint insert_by_ts (r : snapshot) (rows : list snapshot) : list snapshot :=
  match rows with
  | [] => [r]
  | r' :: rest =>
      if String.leb (snap_timestamp r) (snap_timestamp r') then r :: rows
      else r' :: insert_by_ts r rest
  end.

Fixpoint sort_by_ts (rows : list snapshot) : list snapshot :=
  match rows with
  | [] => []
  | r :: rest => insert_by_ts r (sort_by_ts rest)
  end.

(** database.py [get_indicators_for_date(date_str)] at instant [t]. *)
Definition get_indicators_for_date (st : store) (t : Z) (date_str : option string)
    : list snapshot :=
  let d := match date_str with
           | Some s => if String.eqb s "" then _today_ist t else s
           | None => _today_ist t
           end in
  sort_by_ts (filter (fun r => String.eqb (snap_date r) d) (snapshots st)).

(** [GET /api/indicators]: the [date] and the [points] it answers. *)
Definition get_indicators (st : store) (t : Z) (arg : option string) : string * list snapshot :=
  let date_str := _parse_date arg t in
  (date_str, get_indicators_for_date st t (Some date_str)).

End Routes.

(** The metadata keys [init_db] creates. *)
Definition db_keys : list string :=
  ["current_url"; "current_date"; "session_token"; "session_expiry_date"]%string.

(** ** [POST /api/process] ([routes/process.py], [database.py]) *)

Module Process.
Import Clock Store Scheduler Future Sessions StoreOps Routes.
Open Scope string_scope.

(** database.py [get_latest_snapshot()]: [ORDER BY timestamp DESC LIMIT 1];
    among equal timestamps the first row in rowid order. *)
Definition latest_snapshot (rows : list snapshot) : option snapshot :=
  fold_left (fun best r =>
    match best with
    | None => Some r
    | Some b => if String.ltb (snap_timestamp b) (snap_timestamp r) then Some r else Some b
    end) rows None.

(** The answers of [process()]. *)
Inductive process_response : Type :=
| PMissingExpiry                       (* 400 Missing expiry_date *)
| PCached (r : snapshot)               (* 200, the stored row of this minute *)
| PSaved (ind : indicators) (fut : fut_indicators) (saved : save_result)
| PBadRequest                          (* 400, a ValueError *)
| PFailed.                             (* 500 *)

Section Process.
Variable parse_float : string -> option float.
(** [fetch_with_retry(lambda: fetch_option_chain(...))] with the expiry and
    the token: the payload, or the exception it ends in ([inl v] with
    [v = true] for a ValueError). *)
Variable fetch_option_chain : string -> option string -> bool + json.
(** [get_current_nifty_future()] and [fetch_with_retry(lambda:
    fetch_nifty_future_quote(...))]: the quote, or [None] when either raises. *)
Variable fetch_future_quote : option string -> option json.

(** [POST /api/process] at instant [t]: the new [_state], the store, the
    answer and whether Upstox was called. *)
Definition process (sess : session) (st : store) (t : Z) (body : option json)
    : result (session * store * process_response * bool) :=
  let b := request_body body in
  token <- body_str b "token" ;;
  expiry_date <- body_str b "expiry_date" ;;
  if String.eqb expiry_date "" then Ok (sess, st, PMissingExpiry, false)
  else
    let tok := if String.eqb token "" then None else Some token in
    let '(sess1, st1) := set_session st tok (Some expiry_date) in
    let st2 := fst (check_and_clear_for_url_change st1 (source_identifier expiry_date token)) in
    let cached :=
      match latest_snapshot (snapshots st2) with
      | Some r => if String.eqb (substring 0 16 (snap_timestamp r)) (minute_bucket t)
                  then Some r else None
      | None => None
      end in
    match cached with
    | Some r => Ok (sess1, st2, PCached r, false)
    | None =>
        match fetch_option_chain expiry_date tok with
        | inl is_value_error =>
            Ok (sess1, st2, if is_value_error then PBadRequest else PFailed, true)
        | inr api_resp =>
            match calculate_indicators parse_float api_resp with
            | Raise ValueError => Ok (sess1, st2, PBadRequest, true)
            | Raise _ => Ok (sess1, st2, PFailed, true)
            | Ok ind =>
                let fut := match fetch_future_quote tok with
                           | Some q => match calculate_future_indicators parse_float q with
                                       | Ok f => f
                                       | Raise _ => no_fut
                                       end
                           | None => no_fut
                           end in
                let '(st3, saved) := save_snapshot st2 t ind fut api_resp in
                Ok (sess1, st3, PSaved ind fut saved, true)
            end
        end
    end.

End Process.
End Process.

(** ** Custom indicators ([database.py], [routes/custom_indicators.py]) *)

Module Custom.
Import Routes.
Open Scope string_scope.

(** A row of the [custom_indicators] table: [id], [name], [formula], [created_at]. *)
Record crow : Type := mkCRow {
  c_id : Z;
  c_name : string;
  c_formula : string;
  c_created : string
}.

(** The table as its rowid B-tree (rows in increasing [id]) and its
    [sqlite_sequence] entry ([AUTOINCREMENT]). *)
Record ctable : Type := mkCTable {
  crows : list crow;
  cseq : Z
}.

(** The table [init_db] creates. *)
Definition empty_ctable : ctable := mkCTable [] 0.

Definition cmax_id (rows : list crow) : Z :=
  fold_right (fun r m => Z.max (c_id r) m) 0%Z rows.

(** [SELECT ... FROM custom_indicators WHERE name = ?] (BINARY collation). *)
Definition find_name (rows : list crow) (n : string) : option crow :=
  find (fun r => String.eqb (c_name r) n) rows.

(** [list_custom_indicators()]: [ORDER BY id ASC], the rowid order. *)
Definition list_custom_indicators (tbl : ctable) : list crow := crows tbl.

(** [upsert_custom_indicator(name, formula)], [now] being what
    [datetime('now')] gives. The INSERT draws a new rowid (one more than the
    larger of [sqlite_sequence] and the largest id) before the UNIQUE check;
    on a conflict on [name] the existing row only gets the new formula. The
    final [dict(cur.fetchone())] raises TypeError on no row. *)
Definition upsert_custom_indicator (tbl : ctable) (now name formula : string)
    : result (ctable * (Z * string * string)) :=
  let n := py_strip name in
  let f := py_strip formula in
  let new_id := (Z.max (cseq tbl) (cmax_id (crows tbl)) + 1)%Z in
  let rows1 :=
    match find_name (crows tbl) n with
    | Some _ => map (fun r => if String.eqb (c_name r) n
                              then mkCRow (c_id r) (c_name r) f (c_created r) else r) (crows tbl)
    | None => (crows tbl ++ [mkCRow new_id n f now])%list
    end in
  let tbl1 := mkCTable rows1 new_id in
  match find_name rows1 n with
  | Some r => Ok (tbl1, (c_id r, c_name r, c_formula r))
  | None => Raise TypeError
  end.

(** [delete_custom_indicator(ind_id)]: [cur.rowcount > 0]. *)
Definition delete_custom_indicator (tbl : ctable) (ind_id : Z) : ctable * bool :=
  let kept := filter (fun r => negb (Z.eqb (c_id r) ind_id)) (crows tbl) in
  (mkCTable kept (cseq tbl), Nat.ltb 0 (List.length (crows tbl) - List.length kept)).

(** The answers of [POST /api/custom-indicators]. *)
Inductive create_response : Type :=
| CRequired                                   (* 400 name and formula are required *)
| CRow (id : Z) (name formula : string)       (* 200, the upserted row *)
| CDbError.                                   (* 500 DB error *)

(** routes/custom_indicators.py [create_indicator()]. *)
Definition create_indicator (tbl : ctable) (now : string) (body : option json)
    : result (ctable * create_response) :=
  let b := request_body body in
  name <- body_str b "name" ;;
  formula <- body_str b "formula" ;;
  if String.eqb name "" || String.eqb formula "" then Ok (tbl, CRequired)
  else
    match upsert_custom_indicator tbl now name formula with
    | Ok (tbl1, (i, n, f)) => Ok (tbl1, CRow i n f)
    | Raise _ => Ok (tbl, CDbError)
    end.

(** What the table's constraints keep: names UNIQUE, ids increasing in rowid
    order, none above [sqlite_sequence]. *)
Definition ctable_ok (tbl : ctable) : Prop :=
  NoDup (map c_name (crows tbl)) /\
  StronglySorted Z.lt (map c_id (crows tbl)) /\
  Forall (fun r => (c_id r <= cseq tbl)%Z) (crows tbl).

End Custom.

(** * Theorems *)

Ltac split_results :=
  repeat match goal with
  | H : context [match ?m with Ok _ => _ | Raise _ => _ end] |- _ =>
      let E := fresh "E" in destruct m eqn:E; try discriminate
  | |- context [match ?m with Ok _ => _ | Raise _ => _ end] =>
      let E := fresh "E" in destruct m eqn:E; try discriminate
  end.

Section CalculatorProofs.
Variable parse_float : string -> option float.

Lemma calculate_indicators_finish (api : json) (r : indicators) :
  calculate_indicators parse_float api = Ok r ->
  exists a, r = finish a.
Proof.
  unfold calculate_indicators, bind. intro H.
  destruct (py_get api "status" JNull); try discriminate.
  destruct (negb (status_ok a)); try discriminate.
  destruct (py_get api "data" (JList [])) as [d|]; try discriminate.
  destruct d; try discriminate.
  destruct (run_rows parse_float acc0 l) as [a'|]; try discriminate.
  injection H as <-. eauto.
Qed.

End CalculatorProofs.

Module CalculatorClaims.
Import Samples.

(** C2: for every payload [calculate_indicators] accepts, the derived fields
    are computed from the returned totals: [diff = ce - pe] and
    [ratio = ce / pe] when [pe != 0] and [0.0] otherwise, for the unfiltered
    and for the volume-filtered value aggregates, and
    [diff_trade_value = ce_trade - pe_trade]; all as IEEE binary64 operations. *)
Theorem derived_fields_exact (parse_float : string -> option float) (api : json) (r : indicators) :
  calculate_indicators parse_float api = Ok r ->
  diff_oi_value r = (total_ce_oi_value r - total_pe_oi_value r)%float /\
  ratio_oi_value r =
    (if PrimFloat.eqb (total_pe_oi_value r) 0 then 0
     else total_ce_oi_value r / total_pe_oi_value r)%float /\
  diff_oi_value_2 r = (total_ce_oi_value_2 r - total_pe_oi_value_2 r)%float /\
  ratio_oi_value_2 r =
    (if PrimFloat.eqb (total_pe_oi_value_2 r) 0 then 0
     else total_ce_oi_value_2 r / total_pe_oi_value_2 r)%float /\
  diff_trade_value r = (total_ce_trade_value r - total_pe_trade_value r)%float.
Proof.
  intro H. destruct (calculate_indicators_finish parse_float api r H) as [a ->].
  cbn [finish diff_oi_value ratio_oi_value diff_oi_value_2 ratio_oi_value_2 diff_trade_value
       total_ce_oi_value total_pe_oi_value total_ce_oi_value_2 total_pe_oi_value_2
       total_ce_trade_value total_pe_trade_value].
  unfold ratio_or_zero.
  destruct (PrimFloat.eqb (a_total_pe_oi_value a) 0);
  destruct (PrimFloat.eqb (a_total_pe_oi_value_2 a) 0); repeat split.
Qed.

Lemma derived_fields_exact_witness :
  (exists r, calculate_indicators no_strings two_strikes = Ok r /\
     diff_oi_value r = 380%float /\ ratio_oi_value r = (1400 / 1020)%float) /\
  (exists r, calculate_indicators no_strings two_strikes = Ok r /\
     diff_oi_value r = (total_ce_oi_value r - total_pe_oi_value r)%float).
Proof.
  split.
  - eexists. split; [vm_compute; reflexivity | split; vm_compute; reflexivity].
  - eexists. split; [vm_compute; reflexivity |].
    apply (derived_fields_exact no_strings two_strikes). vm_compute. reflexivity.
Defined.

(** C9: on the payload with status "success" and no rows every field of the
    result is 0.0: [underlying] keeps its start value and both ratios take the
    zero-denominator branch. *)
Theorem empty_chain_all_zero (parse_float : string -> option float) :
  calculate_indicators parse_float empty_chain = Ok zero_indicators.
Proof. vm_compute. reflexivity. Qed.

(** C4 (the failing input): [float()] of an integer of 401 digits raises
    [OverflowError], which [_safe_float] does not catch, so it propagates. *)
Theorem safe_float_overflow (parse_float : string -> option float) :
  _safe_float parse_float (JInt (10 ^ 400)) 0 = Raise OverflowError.
Proof. vm_compute. reflexivity. Qed.

End CalculatorClaims.

Section Conversion.
Open Scope Z_scope.

(** Rounding to 53 bits moves a value below [2^1024 - 2^970] by at most half
    a unit in the last place, so it stays below [2^1024]. *)
Lemma shifted_round_lt (a : Z) (c : bool) :
  2 ^ 53 <= a -> a < 2 ^ 1024 - 2 ^ 970 ->
  let sh := (Z.log2 a - 52)%Z in
  let q := Z.shiftr a sh in
  let r := (a - Z.shiftl q sh)%Z in
  let half := Z.shiftl 1 (sh - 1) in
  (c = true -> half <= r) ->
  Z.shiftl (if c then q + 1 else q) sh < 2 ^ 1024.
Proof.
  intros Hlo Hhi sh q r half Hc.
  assert (Ha : 0 < a) by lia.
  assert (Hl1 : 53 <= Z.log2 a).
  { rewrite <- (Z.log2_pow2 53) by lia. apply Z.log2_le_mono. exact Hlo. }
  assert (Hl2 : Z.log2 a < 1024).
  { apply Z.log2_lt_pow2; [exact Ha|]. lia. }
  assert (Hsh : 1 <= sh <= 971) by (unfold sh; lia).
  assert (HP : 2 ^ sh = 2 * 2 ^ (sh - 1)).
  { replace sh with (Z.succ (sh - 1)) at 1 by lia. apply Z.pow_succ_r. lia. }
  assert (HH : 2 ^ (sh - 1) <= 2 ^ 970) by (apply Z.pow_le_mono_r; lia).
  assert (HHpos : 0 < 2 ^ (sh - 1)) by (apply Z.pow_pos_nonneg; lia).
  unfold r, half, q in *.
  rewrite Z.shiftr_div_pow2 in * by lia.
  rewrite !Z.shiftl_mul_pow2 in * by lia.
  rewrite Z.mul_1_l in Hc.
  pose proof (Z.div_mod a (2 ^ sh) ltac:(lia)) as Hdm.
  pose proof (Z.mod_pos_bound a (2 ^ sh) ltac:(lia)) as Hmb.
  set (P := 2 ^ sh) in *. set (H := 2 ^ (sh - 1)) in *.
  set (Q := a / P) in *. set (R := a mod P) in *.
  destruct c.
  - specialize (Hc eq_refl).
    assert (Hx : (Q + 1) * P = P * Q + P) by ring. rewrite Hx. lia.
  - lia.
Qed.

Lemma int_to_float_in_range (z : Z) :
  Z.abs z < 2 ^ 1024 - 2 ^ 970 -> exists f, int_to_float z = Ok f.
Proof.
  intro Hz. unfold int_to_float.
  destruct (Z.abs z <? 2 ^ 53) eqn:Hs; [eauto|].
  apply Z.ltb_ge in Hs.
  set (c := (Z.shiftl 1 (Z.log2 (Z.abs z) - 52 - 1) <?
               Z.abs z - Z.shiftl (Z.shiftr (Z.abs z) (Z.log2 (Z.abs z) - 52)) (Z.log2 (Z.abs z) - 52))
            || ((Z.abs z - Z.shiftl (Z.shiftr (Z.abs z) (Z.log2 (Z.abs z) - 52)) (Z.log2 (Z.abs z) - 52)
                 =? Z.shiftl 1 (Z.log2 (Z.abs z) - 52 - 1))
                && Z.odd (Z.shiftr (Z.abs z) (Z.log2 (Z.abs z) - 52)))).
  pose proof (shifted_round_lt (Z.abs z) c Hs Hz) as Hb. cbv zeta in Hb.
  fold c.
  destruct (2 ^ 1024 <=? _) eqn:Ho; [|eauto].
  apply Z.leb_le in Ho. exfalso.
  assert (Hc : c = true ->
     Z.shiftl 1 (Z.log2 (Z.abs z) - 52 - 1) <=
     Z.abs z - Z.shiftl (Z.shiftr (Z.abs z) (Z.log2 (Z.abs z) - 52)) (Z.log2 (Z.abs z) - 52)).
  { unfold c. intro Hc. apply orb_true_iff in Hc as [Hc|Hc].
    - apply Z.ltb_lt in Hc. lia.
    - apply andb_true_iff in Hc as [Hc _]. apply Z.eqb_eq in Hc. lia. }
  specialize (Hb Hc). lia.
Qed.

End Conversion.

Section RowProofs.
Variable parse_float : string -> option float.
Import Samples.

Lemma safe_float_not_value_error (v : json) (d : float) :
  _safe_float parse_float v d <> Raise ValueError.
Proof.
  unfold _safe_float. destruct (py_float parse_float v) as [|[]]; discriminate.
Qed.

Lemma py_get_not_value_error (d : json) (k : string) (default : json) :
  py_get d k default <> Raise ValueError.
Proof. destruct d; discriminate. Qed.

Lemma bind_not_value_error {A B} (m : result A) (k : A -> result B) :
  m <> Raise ValueError -> (forall a, k a <> Raise ValueError) ->
  bind m k <> Raise ValueError.
Proof. destruct m; simpl; auto. intros H _ He. injection He as ->. exact (H eq_refl). Qed.

Ltac no_value_error :=
  repeat (apply bind_not_value_error;
          [auto using py_get_not_value_error, safe_float_not_value_error | intro]);
  try discriminate.

Lemma read_side_not_value_error (row : json) (key : string) :
  read_side parse_float row key <> Raise ValueError.
Proof. unfold read_side. no_value_error. Qed.

Lemma row_step_not_value_error (a : acc) (row : json) :
  row_step parse_float a row <> Raise ValueError.
Proof. unfold row_step. no_value_error; apply read_side_not_value_error. Qed.

Lemma run_rows_not_value_error (rows : list json) : forall a,
  run_rows parse_float a rows <> Raise ValueError.
Proof.
  induction rows as [|row rows IH]; intro a; simpl; [discriminate|].
  apply bind_not_value_error; [apply row_step_not_value_error | apply IH].
Qed.

Lemma convertible_safe_float (v : json) (d : float) :
  float_convertible v = true -> exists f, _safe_float parse_float v d = Ok f.
Proof.
  unfold _safe_float, py_float. destruct v; simpl; intro Hv; eauto.
  - apply Z.ltb_lt in Hv. destruct (int_to_float_in_range z Hv) as [f ->]. eauto.
  - destruct (parse_float s); eauto.
Qed.

Lemma wf_read_side (o : json) (row : json) (key : string) :
  py_get row key empty_dict = Ok o -> wf_side o = true ->
  exists s, read_side parse_float row key = Ok s.
Proof.
  intros Ho Hw. unfold read_side. rewrite Ho. simpl.
  destruct o as [| | | | | |kv]; try discriminate. simpl.
  unfold wf_side in Hw. fold (dict_get kv "market_data" empty_dict).
  destruct (dict_get kv "market_data" empty_dict) as [| | | | | |md]; try discriminate.
  simpl in *. unfold dict_get in Hw.
  apply andb_true_iff in Hw as [H1 Hw]. apply andb_true_iff in Hw as [H2 Hw].
  apply andb_true_iff in Hw as [H3 Hw]. apply andb_true_iff in Hw as [H4 _].
  destruct (convertible_safe_float _ 0 H1) as [f1 ->].
  destruct (convertible_safe_float _ 0 H2) as [f2 ->].
  destruct (convertible_safe_float _ 0 H3) as [f3 ->].
  destruct (convertible_safe_float _ 0 H4) as [f4 ->].
  simpl. eauto.
Qed.

Lemma wf_row_step (a : acc) (row : json) :
  wf_row row = true -> exists a', row_step parse_float a row = Ok a'.
Proof.
  intro Hw. destruct row as [| | | | | |kv]; try discriminate.
  unfold wf_row in Hw.
  apply andb_true_iff in Hw as [Hw Hp]. apply andb_true_iff in Hw as [Hs Hc].
  unfold row_step. simpl. fold (dict_get kv "underlying_spot_price" (JInt 0)).
  destruct (convertible_safe_float _ 0 Hs) as [spot ->]. simpl.
  destruct (wf_read_side _ (JObj kv) "call_options" eq_refl Hc) as [c ->]. simpl.
  destruct (wf_read_side _ (JObj kv) "put_options" eq_refl Hp) as [p ->]. simpl.
  eauto.
Qed.

Lemma wf_run_rows (rows : list json) : forall a,
  forallb wf_row rows = true -> exists a', run_rows parse_float a rows = Ok a'.
Proof.
  induction rows as [|row rows IH]; intros a Hw; simpl; [eauto|].
  apply andb_true_iff in Hw as [Hr Hw].
  destruct (wf_row_step a row Hr) as [a1 ->]. simpl. apply IH, Hw.
Qed.

End RowProofs.

Module CalculatorErrors.
Import Samples.

(** C8: on a payload dict, [calculate_indicators] raises [ValueError] exactly
    when [status] is not "success" or the [data] field is present and not a
    list ([api_response.get("data", [])] reads a missing field as []); with
    status "success" and a list of well-formed rows it returns normally. *)
Theorem value_error_iff (parse_float : string -> option float) (kv : list (string * json)) :
  (calculate_indicators parse_float (JObj kv) = Raise ValueError <->
     status_ok (dict_get kv "status" JNull) = false \/
     is_list (dict_get kv "data" (JList [])) = false) /\
  (forall rows, status_ok (dict_get kv "status" JNull) = true ->
     dict_get kv "data" (JList []) = JList rows ->
     forallb wf_row rows = true ->
     exists r, calculate_indicators parse_float (JObj kv) = Ok r).
Proof.
  unfold calculate_indicators, dict_get. simpl. split.
  - destruct (status_ok _) eqn:Hs; simpl.
    + destruct (match dict_lookup "data" kv with Some v => v | None => JList [] end) as [| | | | |rows|];
        simpl; try (split; [intros _; right; reflexivity | intros _; reflexivity]).
      split; [|intros [H|H]; discriminate].
      intro H. exfalso. revert H.
      apply bind_not_value_error; [apply run_rows_not_value_error | discriminate].
    + split; [intros _; left; reflexivity | intros _; reflexivity].
  - intros rows Hs Hd Hw. rewrite Hs, Hd. simpl.
    destruct (wf_run_rows parse_float rows acc0 Hw) as [a ->]. simpl. eauto.
Qed.

Lemma value_error_iff_witness :
  exists r, calculate_indicators no_strings (JObj two_strikes_kv) = Ok r.
Proof.
  refine (proj2 (value_error_iff no_strings two_strikes_kv) _ eq_refl eq_refl _).
  vm_compute. reflexivity.
Defined.

End CalculatorErrors.

Module VolumeFilter.
Import Samples.

Section Filter.
Variable parse_float : string -> option float.

Lemma run_rows_ce_filter_noop (rows : list json) : forall a a',
  a_total_ce_oi_value_2 a = a_total_ce_oi_value a ->
  (forall row c, In row rows -> read_side parse_float row "call_options" = Ok c ->
     PrimFloat.ltb 0 (s_vol c) = true) ->
  run_rows parse_float a rows = Ok a' ->
  a_total_ce_oi_value_2 a' = a_total_ce_oi_value a'.
Proof.
  induction rows as [|row rows IH]; intros a a' Heq Hv Hrun; simpl in Hrun.
  - injection Hrun as <-. exact Heq.
  - unfold bind in Hrun. destruct (row_step parse_float a row) as [a1|] eqn:Hs; [|discriminate].
    apply (IH a1 a'); [| intros r c Hin; apply Hv; right; exact Hin | exact Hrun].
    unfold row_step, bind in Hs. split_results.
    injection Hs as <-. simpl.
    match goal with E : read_side _ _ "call_options" = Ok ?c |- _ =>
      rewrite (Hv row c (or_introl eq_refl) E), Heq; reflexivity end.
Qed.

Lemma run_rows_pe_filter_noop (rows : list json) : forall a a',
  a_total_pe_oi_value_2 a = a_total_pe_oi_value a ->
  (forall row p, In row rows -> read_side parse_float row "put_options" = Ok p ->
     PrimFloat.ltb 0 (s_vol p) = true) ->
  run_rows parse_float a rows = Ok a' ->
  a_total_pe_oi_value_2 a' = a_total_pe_oi_value a'.
Proof.
  induction rows as [|row rows IH]; intros a a' Heq Hv Hrun; simpl in Hrun.
  - injection Hrun as <-. exact Heq.
  - unfold bind in Hrun. destruct (row_step parse_float a row) as [a1|] eqn:Hs; [|discriminate].
    apply (IH a1 a'); [| intros r p Hin; apply Hv; right; exact Hin | exact Hrun].
    unfold row_step, bind in Hs. split_results.
    injection Hs as <-. simpl.
    match goal with E : read_side _ _ "put_options" = Ok ?p |- _ =>
      rewrite (Hv row p (or_introl eq_refl) E), Heq; reflexivity end.
Qed.

End Filter.

(** C10: when every row's call-side volume (as [_safe_float] reads it) is
    [> 0], [total_ce_oi_value_2 = total_ce_oi_value]; likewise on the put side. *)
Theorem volume_filter_noop (parse_float : string -> option float)
    (kv : list (string * json)) (rows : list json) (r : indicators) :
  dict_get kv "data" (JList []) = JList rows ->
  calculate_indicators parse_float (JObj kv) = Ok r ->
  ((forall row c, In row rows -> read_side parse_float row "call_options" = Ok c ->
      PrimFloat.ltb 0 (s_vol c) = true) ->
   total_ce_oi_value_2 r = total_ce_oi_value r) /\
  ((forall row p, In row rows -> read_side parse_float row "put_options" = Ok p ->
      PrimFloat.ltb 0 (s_vol p) = true) ->
   total_pe_oi_value_2 r = total_pe_oi_value r).
Proof.
  intros Hd Hc. unfold calculate_indicators in Hc. simpl in Hc.
  unfold dict_get in Hd. rewrite Hd in Hc.
  destruct (status_ok _); simpl in Hc; [|discriminate].
  destruct (run_rows parse_float acc0 rows) as [a|] eqn:Hrun; simpl in Hc; [|discriminate].
  injection Hc as <-. simpl. split; intro Hv.
  - exact (run_rows_ce_filter_noop parse_float rows acc0 a eq_refl Hv Hrun).
  - exact (run_rows_pe_filter_noop parse_float rows acc0 a eq_refl Hv Hrun).
Qed.

Lemma volume_filter_noop_witness :
  exists r, calculate_indicators no_strings (JObj two_strikes_kv) = Ok r /\
    total_ce_oi_value_2 r = total_ce_oi_value r.
Proof.
  eexists. split; [vm_compute; reflexivity|].
  refine (proj1 (volume_filter_noop no_strings two_strikes_kv _ _ eq_refl _) _).
  - vm_compute. reflexivity.
  - intros row c Hin Hc. simpl in Hin.
    destruct Hin as [<-|[<-|[]]]; vm_compute in Hc; injection Hc as <-; reflexivity.
Defined.

End VolumeFilter.

(** ** Timestamps, minute buckets and [LIKE] *)

Module BucketLemmas.
Import Clock.
Open Scope string_scope.

Definition bucket_chars : list ascii :=
  ["0"; "1"; "2"; "3"; "4"; "5"; "6"; "7"; "8"; "9"; "-"; "T"; ":"]%char.

(** The characters [strftime("%Y-%m-%dT%H:%M")] writes. *)
Definition bucket_char (c : ascii) : bool := existsb (Ascii.eqb c) bucket_chars.

Fixpoint all_bucket_chars (s : string) : bool :=
  match s with
  | EmptyString => true
  | String c s' => bucket_char c && all_bucket_chars s'
  end.

Lemma string_app_assoc (a b c : string) : (a ++ b) ++ c = a ++ (b ++ c).
Proof. induction a as [|x a IH]; simpl; [reflexivity | rewrite IH; reflexivity]. Qed.

Lemma ts_str_bucket (t : Z) :
  ts_str t = minute_bucket t ++ (":" ++ pad2 (second t) ++ "Z").
Proof.
  unfold ts_str, minute_bucket. rewrite !string_app_assoc. reflexivity.
Qed.

Lemma bucket_char_in (c : ascii) : bucket_char c = true -> In c bucket_chars.
Proof.
  unfold bucket_char. intro H. apply existsb_exists in H as [x [Hx Hc]].
  apply Ascii.eqb_eq in Hc. subst. exact Hx.
Qed.

Lemma digit_bucket_char (n : Z) : bucket_char (digit n) = true.
Proof.
  unfold digit.
  assert (Hk : (Z.to_nat (n mod 10) < 10)%nat).
  { pose proof (Z.mod_pos_bound n 10 ltac:(lia)). lia. }
  destruct (Z.to_nat (n mod 10)) as [|[|[|[|[|[|[|[|[|[|k]]]]]]]]]];
    try reflexivity; lia.
Qed.

Lemma minute_bucket_chars (t : Z) : all_bucket_chars (minute_bucket t) = true.
Proof.
  unfold minute_bucket, fmt_date.
  destruct (civil_from_days (t / 86400)) as [[y m] d].
  cbn -[digit bucket_char]. rewrite !digit_bucket_char. reflexivity.
Qed.

Lemma minute_bucket_length (t : Z) : String.length (minute_bucket t) = 16%nat.
Proof.
  unfold minute_bucket, fmt_date.
  destruct (civil_from_days (t / 86400)) as [[y m] d]. reflexivity.
Qed.

Lemma bucket_char_plain (c : ascii) :
  bucket_char c = true ->
  Ascii.eqb c "%" = false /\ Ascii.eqb c "_" = false /\ Sql.eq_ci c c = true.
Proof.
  intro H. apply bucket_char_in in H.
  repeat (destruct H as [<-|H]; [vm_compute; auto|]). destruct H.
Qed.

Lemma bucket_char_ci (c d : ascii) :
  bucket_char c = true -> bucket_char d = true -> Sql.eq_ci c d = true -> c = d.
Proof.
  intros Hc Hd. apply bucket_char_in in Hc. apply bucket_char_in in Hd.
  repeat (destruct Hc as [<-|Hc]);
    try (repeat (destruct Hd as [<-|Hd]); try destruct Hd;
         vm_compute; first [reflexivity | discriminate]);
    destruct Hc.
Qed.

Lemma like_percent (s : string) : Sql.like "%" s = true.
Proof.
  induction s as [|c s IH]; [reflexivity|].
  simpl in *. destruct s; [reflexivity | exact IH].
Qed.

Lemma like_bucket_self (p s : string) :
  all_bucket_chars p = true -> Sql.like (p ++ "%") (p ++ s) = true.
Proof.
  induction p as [|c p IH]; intro Hp; simpl.
  - apply like_percent.
  - simpl in Hp. apply andb_true_iff in Hp as [Hc Hp].
    destruct (bucket_char_plain c Hc) as [H1 [H2 H3]].
    rewrite H1, H2, H3. simpl. apply IH, Hp.
Qed.

Lemma like_bucket_eq (p q s : string) :
  all_bucket_chars p = true -> all_bucket_chars q = true ->
  String.length p = String.length q ->
  Sql.like (p ++ "%") (q ++ s) = true -> p = q.
Proof.
  revert q. induction p as [|c p IH]; intros q Hp Hq Hl Hlike;
    destruct q as [|d q]; simpl in Hl; try discriminate; [reflexivity|].
  simpl in Hp, Hq. apply andb_true_iff in Hp as [Hc Hp]. apply andb_true_iff in Hq as [Hd Hq].
  destruct (bucket_char_plain c Hc) as [H1 [H2 _]].
  simpl in Hlike. rewrite H1, H2 in Hlike. simpl in Hlike.
  apply andb_true_iff in Hlike as [Hci Hlike].
  rewrite (bucket_char_ci c d Hc Hd Hci).
  f_equal. apply IH; auto.
Qed.

End BucketLemmas.

Module StoreClaims.
Import Clock Store BucketLemmas Samples.

#[local] Opaque ts_str minute_bucket fmt_date _today_ist.

Lemma check_and_clear_empty (st : store) (t : Z) :
  snapshots st = [] -> check_and_clear_old_data st t = (st, false).
Proof. intro H. unfold check_and_clear_old_data. rewrite H. reflexivity. Qed.

Lemma check_and_clear_today (st : store) (t : Z) :
  max_date (snapshots st) = Some (_today_ist t) -> check_and_clear_old_data st t = (st, false).
Proof.
  intro H. unfold check_and_clear_old_data. rewrite H, String.eqb_refl. reflexivity.
Qed.

(** The first save on an empty table inserts one row. *)
Lemma save_on_empty (st : store) (t : Z) ind fut raw :
  snapshots st = [] ->
  save_snapshot st t ind fut raw =
    (mkStore [mkSnap (Z.max (seq st) 0 + 1) (ts_str t) (fmt_date t) ind fut raw]
             (Z.max (seq st) 0 + 1) (metadata st),
     mkSaved (Z.max (seq st) 0 + 1) (ts_str t) (fmt_date t) false).
Proof.
  intro H. unfold save_snapshot. rewrite check_and_clear_empty by exact H. simpl.
  rewrite H. reflexivity.
Qed.

(** The minute bucket of [t1] matches the stored timestamp of [t1]'s row
    exactly when the two buckets are equal. *)
Lemma like_bucket_ts (t1 t2 : Z) :
  Sql.like (minute_bucket t2 ++ "%") (ts_str t1) = true <->
  minute_bucket t2 = minute_bucket t1.
Proof.
  rewrite ts_str_bucket. split.
  - apply like_bucket_eq;
      [apply minute_bucket_chars | apply minute_bucket_chars
      | rewrite !minute_bucket_length; reflexivity].
  - intros Heq. rewrite Heq. apply like_bucket_self, minute_bucket_chars.
Qed.

(** When the day-rollover check keeps the table (its greatest
    [date] is today's date in UTC+5:30) and a row's timestamp lies in the
    current minute bucket, [save_snapshot] writes nothing and returns the
    first such row's id, timestamp and date with [already_existed = true].
    Hence, from an empty table, a second save in the same minute bucket as
    the first, with no rollover in between, leaves the one row of the first
    save and reports its identity. *)
Theorem save_snapshot_minute_dedup :
  (forall st t ind fut raw r,
     max_date (snapshots st) = Some (_today_ist t) ->
     lookup_bucket (snapshots st) (minute_bucket t) = Some r ->
     save_snapshot st t ind fut raw =
       (st, mkSaved (snap_id r) (snap_timestamp r) (snap_date r) true)) /\
  (forall st0 st1 st2 r1 r2 t1 t2 ind1 ind2 fut1 fut2 raw1 raw2,
     snapshots st0 = [] ->
     minute_bucket t1 = minute_bucket t2 ->
     fmt_date t1 = _today_ist t2 ->
     save_snapshot st0 t1 ind1 fut1 raw1 = (st1, r1) ->
     save_snapshot st1 t2 ind2 fut2 raw2 = (st2, r2) ->
     st2 = st1 /\ List.length (snapshots st2) = 1%nat /\ already_existed r2 = true /\
     res_id r2 = res_id r1 /\ res_timestamp r2 = res_timestamp r1 /\ res_date r2 = res_date r1).
Proof.
  split.
  - intros st t ind fut raw r Hd Hl. unfold save_snapshot.
    rewrite check_and_clear_today by exact Hd. simpl. rewrite Hl. reflexivity.
  - intros st0 st1 st2 r1 r2 t1 t2 ind1 ind2 fut1 fut2 raw1 raw2 H0 Hb Hdt S1 S2.
    rewrite save_on_empty in S1 by exact H0. injection S1 as <- <-.
    unfold save_snapshot in S2.
    rewrite check_and_clear_today in S2 by (simpl; rewrite Hdt; reflexivity).
    simpl in S2. unfold lookup_bucket in S2. simpl in S2.
    rewrite (proj2 (like_bucket_ts t1 t2) (eq_sym Hb)) in S2. simpl in S2.
    injection S2 as <- <-. simpl. repeat split.
Qed.

Lemma save_snapshot_minute_dedup_witness :
  exists st1 r1 st2 r2,
    save_snapshot empty_store t_0415 zero_indicators no_fut JNull = (st1, r1) /\
    save_snapshot st1 t_041530 zero_indicators no_fut JNull = (st2, r2) /\
    st2 = st1 /\ List.length (snapshots st2) = 1%nat /\ already_existed r2 = true /\
    res_id r2 = res_id r1 /\ res_timestamp r2 = res_timestamp r1 /\ res_date r2 = res_date r1.
Proof.
  set (s1 := save_snapshot empty_store t_0415 zero_indicators no_fut JNull).
  set (s2 := save_snapshot (fst s1) t_041530 zero_indicators no_fut JNull).
  exists (fst s1), (snd s1), (fst s2), (snd s2).
  split; [apply surjective_pairing|]. split; [apply surjective_pairing|].
  refine (proj2 save_snapshot_minute_dedup empty_store _ _ _ _ t_0415 t_041530
            zero_indicators zero_indicators no_fut no_fut JNull JNull
            eq_refl _ _ (surjective_pairing _) (surjective_pairing _));
    vm_compute; reflexivity.
Defined.

Lemma check_and_clear_rows (st : store) (t : Z) :
  snapshots (fst (check_and_clear_old_data st t)) = snapshots st \/
  snapshots (fst (check_and_clear_old_data st t)) = [].
Proof.
  unfold check_and_clear_old_data.
  destruct (max_date (snapshots st)); [|left; reflexivity].
  destruct (negb _); simpl; auto.
Qed.

(** With no row in the current minute bucket, [save_snapshot]
    appends one row, after the day-rollover check (which may have emptied the
    table), whose timestamp is the full-second [%Y-%m-%dT%H:%M:%SZ] string,
    the minute bucket followed by [:SS] and [Z], and reports
    [already_existed = false]. From an empty table, two saves in different
    minute buckets give two rows when the rollover check at the second save
    keeps the first row (its date is the UTC+5:30 date of the second save). *)
Theorem save_snapshot_new_minute :
  (forall st t ind fut raw st' r,
     lookup_bucket (snapshots st) (minute_bucket t) = None ->
     save_snapshot st t ind fut raw = (st', r) ->
     already_existed r = false /\
     res_timestamp r = (minute_bucket t ++ ":" ++ pad2 (second t) ++ "Z")%string /\
     snapshots st' = (snapshots (fst (check_and_clear_old_data st t)) ++
                      [mkSnap (res_id r) (res_timestamp r) (fmt_date t) ind fut raw])%list) /\
  (forall st0 st1 st2 r1 r2 t1 t2 ind1 ind2 fut1 fut2 raw1 raw2,
     snapshots st0 = [] ->
     minute_bucket t1 <> minute_bucket t2 ->
     fmt_date t1 = _today_ist t2 ->
     save_snapshot st0 t1 ind1 fut1 raw1 = (st1, r1) ->
     save_snapshot st1 t2 ind2 fut2 raw2 = (st2, r2) ->
     List.length (snapshots st2) = 2%nat /\ already_existed r1 = false /\
     already_existed r2 = false /\
     map snap_timestamp (snapshots st2) = [res_timestamp r1; res_timestamp r2]).
Proof.
  split.
  - intros st t ind fut raw st' r Hl S. unfold save_snapshot in S.
    assert (Hl1 : lookup_bucket (snapshots (fst (check_and_clear_old_data st t)))
                    (minute_bucket t) = None).
    { destruct (check_and_clear_rows st t) as [-> | ->]; [exact Hl | reflexivity]. }
    rewrite Hl1 in S. injection S as <- <-. simpl.
    rewrite <- ts_str_bucket. auto.
  - intros st0 st1 st2 r1 r2 t1 t2 ind1 ind2 fut1 fut2 raw1 raw2 H0 Hb Hdt S1 S2.
    rewrite save_on_empty in S1 by exact H0. injection S1 as <- <-.
    unfold save_snapshot in S2.
    rewrite check_and_clear_today in S2 by (simpl; rewrite Hdt; reflexivity).
    simpl in S2. unfold lookup_bucket in S2. simpl in S2.
    destruct (Sql.like (minute_bucket t2 ++ "%") (ts_str t1)) eqn:Hlike.
    + exfalso. apply Hb. symmetry. apply like_bucket_ts. exact Hlike.
    + simpl in S2. injection S2 as <- <-. simpl. repeat split.
Qed.

Lemma save_snapshot_new_minute_witness :
  exists st1 r1 st2 r2,
    save_snapshot empty_store t_0415 zero_indicators no_fut JNull = (st1, r1) /\
    save_snapshot st1 t_0416 zero_indicators no_fut JNull = (st2, r2) /\
    List.length (snapshots st2) = 2%nat /\ already_existed r1 = false /\
    already_existed r2 = false /\
    map snap_timestamp (snapshots st2) = [res_timestamp r1; res_timestamp r2].
Proof.
  set (s1 := save_snapshot empty_store t_0415 zero_indicators no_fut JNull).
  set (s2 := save_snapshot (fst s1) t_0416 zero_indicators no_fut JNull).
  exists (fst s1), (snd s1), (fst s2), (snd s2).
  split; [apply surjective_pairing|]. split; [apply surjective_pairing|].
  refine (proj2 save_snapshot_new_minute empty_store _ _ _ _ t_0415 t_0416
            zero_indicators zero_indicators no_fut no_fut JNull JNull
            eq_refl _ _ (surjective_pairing _) (surjective_pairing _)).
  - vm_compute. discriminate.
  - vm_compute. reflexivity.
Defined.

(** C3 (the failing input): at 2026-02-27T20:00:00Z, already 2026-02-28 in
    UTC+5:30, the row [save_snapshot] inserts carries the UTC day. *)
Theorem save_snapshot_date_utc_day (ind : indicators) (fut : fut_indicators) (raw : json) :
  res_date (snd (save_snapshot empty_store t_2000 ind fut raw)) = "2026-02-27"%string /\
  map snap_date (snapshots (fst (save_snapshot empty_store t_2000 ind fut raw)))
    = ["2026-02-27"%string] /\
  _today_ist t_2000 = "2026-02-28"%string.
Proof. vm_compute. auto. Qed.

Lemma meta_get_update (m : list (string * string)) (k v : string) :
  meta_get (meta_update m k v) k =
  match meta_get m k with Some _ => Some v | None => None end.
Proof.
  unfold meta_get, meta_update.
  induction m as [|[k' v'] m IH]; [reflexivity|]. simpl.
  destruct (String.eqb k' k) eqn:E; simpl.
  - rewrite String.eqb_refl. reflexivity.
  - rewrite E. exact IH.
Qed.

(** C6: with the [current_url] metadata row in place (as [init_db] creates
    it), [check_and_clear_for_url_change] always adopts the new identity; it
    deletes every snapshot and returns [True] when a non-empty stored identity
    differs from the new one, and deletes nothing and returns [False] when
    the stored identity is empty (never set) or equal to the new one. *)
Theorem url_change_contract (st : store) (v new_url : string) :
  meta_get (metadata st) "current_url" = Some v ->
  meta_get (metadata (fst (check_and_clear_for_url_change st new_url))) "current_url"
    = Some new_url /\
  (v <> ""%string -> v <> new_url ->
     snapshots (fst (check_and_clear_for_url_change st new_url)) = [] /\
     snd (check_and_clear_for_url_change st new_url) = true) /\
  (v = ""%string ->
     snapshots (fst (check_and_clear_for_url_change st new_url)) = snapshots st /\
     snd (check_and_clear_for_url_change st new_url) = false) /\
  (v = new_url ->
     snapshots (fst (check_and_clear_for_url_change st new_url)) = snapshots st /\
     snd (check_and_clear_for_url_change st new_url) = false).
Proof.
  intro Hv. unfold check_and_clear_for_url_change. rewrite Hv.
  destruct (String.eqb v "") eqn:E1; destruct (String.eqb v new_url) eqn:E2; simpl;
    rewrite meta_get_update, Hv;
    apply String.eqb_eq in E1 || apply String.eqb_neq in E1;
    apply String.eqb_eq in E2 || apply String.eqb_neq in E2;
    repeat split; try (intros; congruence); try tauto.
Qed.

Lemma url_change_contract_witness :
  meta_get (metadata empty_store) "current_url" = Some ""%string /\
  meta_get (metadata (fst (check_and_clear_for_url_change empty_store "upstox|Nifty 50|2026-03-05|env")))
    "current_url" = Some "upstox|Nifty 50|2026-03-05|env"%string.
Proof.
  split; [reflexivity|].
  exact (proj1 (url_change_contract empty_store "" _ eq_refl)).
Defined.

(** C1 (the failing input): the [date] column holds the UTC day, so between
    18:30 and 24:00 UTC the rollover check sees a date other than today's
    UTC+5:30 date on every row. A second save in the same minute bucket
    (20:00:00Z, then 20:00:30Z) deletes the first row and inserts a new one,
    reporting [already_existed = false] and a new id. *)
Lemma resave_same_minute_after_ist_midnight :
  let s1 := save_snapshot empty_store t_2000 zero_indicators no_fut JNull in
  let s2 := save_snapshot (fst s1) (t_2000 + 30) zero_indicators no_fut JNull in
  minute_bucket t_2000 = minute_bucket (t_2000 + 30) /\
  already_existed (snd s2) = false /\ res_id (snd s2) = 2%Z /\
  map snap_id (snapshots (fst s2)) = [2%Z].
Proof. vm_compute. auto. Qed.

(** C5 (the failing input): for the same reason, two saves in different
    minute buckets (20:00:00Z, then 20:01:00Z) leave one row, not two. *)
Lemma two_minutes_after_ist_midnight :
  let s1 := save_snapshot empty_store t_2000 zero_indicators no_fut JNull in
  let s2 := save_snapshot (fst s1) (t_2000 + 60) zero_indicators no_fut JNull in
  minute_bucket t_2000 <> minute_bucket (t_2000 + 60) /\
  already_existed (snd s1) = false /\ already_existed (snd s2) = false /\
  List.length (snapshots (fst s2)) = 1%nat.
Proof. vm_compute. split; [discriminate | auto]. Qed.

End StoreClaims.

Module SchedulerClaims.
Import Store Scheduler Samples.

(** C7: when the UTC+5:30 clock is on a Saturday or Sunday, or its
    [hour * 60 + minute] is before 09:14 or after 15:31, [scheduled_fetch]
    returns at once: no vendor call, no store call, the store unchanged. *)
Theorem market_gate_no_fetch (parse_float : string -> option float)
    (fetch : string -> option string -> result json) (sess : session) (st : store) (t : Z) :
  (5 <= ist_weekday t \/ ist_hm t < 9 * 60 + 14 \/ 15 * 60 + 31 < ist_hm t)%Z ->
  scheduled_fetch parse_float fetch sess st t = (st, []).
Proof.
  intro H. unfold scheduled_fetch, _is_market_hours.
  destruct (5 <=? ist_weekday t)%Z eqn:Hw; [reflexivity|].
  apply Z.leb_gt in Hw.
  destruct H as [H|[H|H]]; [lia| |].
  - replace (9 * 60 + 14 <=? ist_hm t)%Z with false by (symmetry; apply Z.leb_gt; lia).
    reflexivity.
  - replace (ist_hm t <=? 15 * 60 + 31)%Z with false by (symmetry; apply Z.leb_gt; lia).
    rewrite andb_false_r. reflexivity.
Qed.

Definition open_session : session := mkSession None (Some "2026-03-05"%string).

(** 2026-02-28 is a Saturday in UTC+5:30 at [t_2000]; the vendor call would succeed. *)
Lemma market_gate_no_fetch_witness :
  ist_weekday t_2000 = 5%Z /\
  scheduled_fetch no_strings (fun _ _ => Ok two_strikes) open_session empty_store t_2000
    = (empty_store, []).
Proof.
  split; [vm_compute; reflexivity|].
  apply market_gate_no_fetch. left. vm_compute. discriminate.
Defined.

End SchedulerClaims.

Module FutureProofs.
Import Store Future Samples.

Section Reads.
Variable parse_float : string -> option float.

Lemma float_or_zero_falsy (kv : list (string * json)) (k : string) :
  json_truthy (dict_get kv k (JInt 0)) = false ->
  float_or_zero parse_float (JObj kv) k = Ok 0%float.
Proof.
  unfold float_or_zero. simpl. fold (dict_get kv k (JInt 0)). intro H. rewrite H. reflexivity.
Qed.

End Reads.
End FutureProofs.

Module FutureClaims.
Import Store Future Samples FutureProofs.


Definition sample_quote : json :=
  JObj [("ltp", JFloat 22100%float); ("atp", JInt 22050); ("oi", JInt 1000);
        ("volume", JNull); ("total_buy_qty", JStr ""); ("total_sell_qty", JInt 0)].




End FutureClaims.

Module RowLemmas.
Import Samples RowShapes.

Section Rows.
Variable parse_float : string -> option float.

Lemma run_rows_underlying (rows : list json) : forall a a',
  run_rows parse_float a rows = Ok a' ->
  exists spots, Forall2 (fun row s => spot_of parse_float row = Ok s) rows spots /\
    a_underlying a' =
      (if truthy (a_underlying a) then a_underlying a else first_truthy (a_underlying a) spots).
Proof.
  induction rows as [|row rows IH]; intros a a' H; simpl in H.
  - injection H as <-. exists []. split; [constructor|].
    simpl. destruct (truthy (a_underlying a)); reflexivity.
  - unfold bind in H. destruct (row_step parse_float a row) as [a1|] eqn:Hs; [|discriminate].
    destruct (IH a1 a' H) as [spots [Hf Hu]].
    unfold row_step, bind in Hs.
    destruct (py_get row "underlying_spot_price" (JInt 0)) as [v|] eqn:Hv; [|discriminate].
    destruct (_safe_float parse_float v 0) as [s|] eqn:Hsf; [|discriminate].
    split_results. injection Hs as <-.
    exists (s :: spots). split.
    + constructor; [unfold spot_of, bind; rewrite Hv; exact Hsf | exact Hf].
    + rewrite Hu. simpl.
      destruct (truthy (a_underlying a)) eqn:Ha; destruct (truthy s) eqn:Ht; simpl;
        rewrite ?Ha, ?Ht; reflexivity.
Qed.

Lemma run_rows_ce_no_volume (rows : list json) : forall a a',
  (forall row c, In row rows -> read_side parse_float row "call_options" = Ok c ->
     PrimFloat.ltb 0 (s_vol c) = false) ->
  run_rows parse_float a rows = Ok a' ->
  a_total_ce_oi_value_2 a' = a_total_ce_oi_value_2 a.
Proof.
  induction rows as [|row rows IH]; intros a a' Hv Hrun; simpl in Hrun.
  - injection Hrun as <-. reflexivity.
  - unfold bind in Hrun. destruct (row_step parse_float a row) as [a1|] eqn:Hs; [|discriminate].
    rewrite (IH a1 a'); [| intros r c Hin; apply Hv; right; exact Hin | exact Hrun].
    unfold row_step, bind in Hs. split_results.
    injection Hs as <-. simpl.
    match goal with E : read_side _ _ "call_options" = Ok ?c |- _ =>
      rewrite (Hv row c (or_introl eq_refl) E); reflexivity end.
Qed.

Lemma run_rows_pe_no_volume (rows : list json) : forall a a',
  (forall row p, In row rows -> read_side parse_float row "put_options" = Ok p ->
     PrimFloat.ltb 0 (s_vol p) = false) ->
  run_rows parse_float a rows = Ok a' ->
  a_total_pe_oi_value_2 a' = a_total_pe_oi_value_2 a.
Proof.
  induction rows as [|row rows IH]; intros a a' Hv Hrun; simpl in Hrun.
  - injection Hrun as <-. reflexivity.
  - unfold bind in Hrun. destruct (row_step parse_float a row) as [a1|] eqn:Hs; [|discriminate].
    rewrite (IH a1 a'); [| intros r p Hin; apply Hv; right; exact Hin | exact Hrun].
    unfold row_step, bind in Hs. split_results.
    injection Hs as <-. simpl.
    match goal with E : read_side _ _ "put_options" = Ok ?p |- _ =>
      rewrite (Hv row p (or_introl eq_refl) E); reflexivity end.
Qed.

Lemma calculate_run_rows (kv : list (string * json)) (rows : list json) (r : indicators) :
  dict_get kv "data" (JList []) = JList rows ->
  calculate_indicators parse_float (JObj kv) = Ok r ->
  exists a, run_rows parse_float acc0 rows = Ok a /\ r = finish a.
Proof.
  intros Hd Hc. unfold calculate_indicators in Hc. simpl in Hc.
  unfold dict_get in Hd. rewrite Hd in Hc.
  destruct (status_ok _); simpl in Hc; [|discriminate].
  destruct (run_rows parse_float acc0 rows) as [a|]; simpl in Hc; [|discriminate].
  injection Hc as <-. eauto.
Qed.

Lemma side_shape (row o : json) (key : string) :
  py_get row key empty_dict = Ok o -> conv_side o = true ->
  (shape_side o = true -> exists s, read_side parse_float row key = Ok s) /\
  (shape_side o = false -> read_side parse_float row key = Raise AttributeError).
Proof.
  intros Ho Hc. split.
  - intro Hs. apply (wf_read_side parse_float o row key Ho).
    destruct o as [| | | | | |kv]; try discriminate. simpl in *.
    destruct (dict_get kv "market_data" empty_dict); try discriminate. exact Hc.
  - intro Hs. unfold read_side. rewrite Ho. simpl.
    destruct o as [| | | | | |kv]; try reflexivity. simpl in *.
    fold (dict_get kv "market_data" empty_dict).
    destruct (dict_get kv "market_data" empty_dict); try discriminate; reflexivity.
Qed.

Lemma row_step_shape (a : acc) (row : json) :
  conv_row row = true ->
  (shape_row row = true -> exists a', row_step parse_float a row = Ok a') /\
  (shape_row row = false -> row_step parse_float a row = Raise AttributeError).
Proof.
  intro Hc. destruct row as [| | | | | |kv]; try (split; [discriminate | reflexivity]).
  simpl in Hc. apply andb_true_iff in Hc as [Hc Hp]. apply andb_true_iff in Hc as [Hs Hc].
  unfold row_step. simpl. fold (dict_get kv "underlying_spot_price" (JInt 0)).
  destruct (convertible_safe_float parse_float _ 0 Hs) as [spot ->]. simpl.
  destruct (side_shape (JObj kv) _ "call_options" eq_refl Hc) as [Hc1 Hc2].
  destruct (side_shape (JObj kv) _ "put_options" eq_refl Hp) as [Hp1 Hp2].
  fold (dict_get kv "call_options" empty_dict) in Hc1, Hc2.
  fold (dict_get kv "put_options" empty_dict) in Hp1, Hp2.
  unfold shape_row.
  destruct (shape_side (dict_get kv "call_options" empty_dict)) eqn:Ec.
  - destruct (Hc1 eq_refl) as [c ->]. simpl.
    destruct (shape_side (dict_get kv "put_options" empty_dict)) eqn:Ep.
    + destruct (Hp1 eq_refl) as [p ->]. simpl. split; [eauto | discriminate].
    + rewrite (Hp2 eq_refl). split; [discriminate | reflexivity].
  - rewrite (Hc2 eq_refl). split; [discriminate | reflexivity].
Qed.

Lemma run_rows_shape (rows : list json) : forall a,
  forallb conv_row rows = true ->
  (forallb shape_row rows = true -> exists a', run_rows parse_float a rows = Ok a') /\
  (forallb shape_row rows = false -> run_rows parse_float a rows = Raise AttributeError).
Proof.
  induction rows as [|row rows IH]; intros a Hc; simpl.
  - split; [eauto | discriminate].
  - apply andb_true_iff in Hc as [Hr Hc].
    destruct (row_step_shape a row Hr) as [H1 H2].
    destruct (shape_row row).
    + destruct (H1 eq_refl) as [a1 ->]. simpl. apply IH, Hc.
    + rewrite (H2 eq_refl). split; [discriminate | reflexivity].
Qed.

End Rows.
End RowLemmas.

Module RowClaims.
Import Samples RowShapes RowLemmas.

(** X3: calculate_indicators: [underlying] is the first truthy (nonzero)
    [underlying_spot_price] of the rows as [_safe_float] reads them, or 0.0
    when there is none; [nifty_price] always equals [underlying], and
    [test_value] is always 0.0. *)
Theorem underlying_first_spot (parse_float : string -> option float)
    (kv : list (string * json)) (rows : list json) (r : indicators) :
  dict_get kv "data" (JList []) = JList rows ->
  calculate_indicators parse_float (JObj kv) = Ok r ->
  exists spots, Forall2 (fun row s => spot_of parse_float row = Ok s) rows spots /\
    underlying r = first_truthy 0 spots /\ nifty_price r = underlying r /\
    test_value r = 0%float.
Proof.
  intros Hd Hc. destruct (calculate_run_rows parse_float kv rows r Hd Hc) as [a [Hrun ->]].
  destruct (run_rows_underlying parse_float rows acc0 a Hrun) as [spots [Hf Hu]].
  exists spots. simpl. simpl in Hu. auto.
Qed.

Lemma underlying_first_spot_witness :
  exists r, calculate_indicators no_strings (JObj two_strikes_kv) = Ok r /\
    underlying r = 22000%float.
Proof.
  eexists. split; [vm_compute; reflexivity|].
  destruct (underlying_first_spot no_strings two_strikes_kv _ _ eq_refl
              ltac:(vm_compute; reflexivity)) as [spots [Hf [Hu _]]].
  rewrite Hu.
  inversion Hf as [|r1 s1 l1 l1' Hs1 Hf1]; subst. vm_compute in Hs1. injection Hs1 as <-.
  reflexivity.
Defined.

(** X4: calculate_indicators: when no row has a call-side volume [> 0] (zero,
    negative or nan), [total_ce_oi_value_2] is 0.0; when no row has a put-side
    volume [> 0], [total_pe_oi_value_2] and [ratio_oi_value_2] are 0.0; when
    both hold, [diff_oi_value_2] is 0.0. *)
Theorem no_volume_zero_filtered (parse_float : string -> option float)
    (kv : list (string * json)) (rows : list json) (r : indicators) :
  dict_get kv "data" (JList []) = JList rows ->
  calculate_indicators parse_float (JObj kv) = Ok r ->
  let no_ce := forall row c, In row rows -> read_side parse_float row "call_options" = Ok c ->
                 PrimFloat.ltb 0 (s_vol c) = false in
  let no_pe := forall row p, In row rows -> read_side parse_float row "put_options" = Ok p ->
                 PrimFloat.ltb 0 (s_vol p) = false in
  (no_ce -> total_ce_oi_value_2 r = 0%float) /\
  (no_pe -> total_pe_oi_value_2 r = 0%float /\ ratio_oi_value_2 r = 0%float) /\
  (no_ce -> no_pe -> diff_oi_value_2 r = 0%float).
Proof.
  intros Hd Hc no_ce no_pe. destruct (calculate_run_rows parse_float kv rows r Hd Hc) as [a [Hrun ->]].
  simpl. unfold ratio_or_zero.
  split; [|split].
  - intro H. exact (run_rows_ce_no_volume parse_float rows acc0 a H Hrun).
  - intro H. rewrite (run_rows_pe_no_volume parse_float rows acc0 a H Hrun). split; reflexivity.
  - intros H1 H2. rewrite (run_rows_ce_no_volume parse_float rows acc0 a H1 Hrun),
      (run_rows_pe_no_volume parse_float rows acc0 a H2 Hrun). reflexivity.
Qed.

Definition idle_chain_kv : list (string * json) :=
  [("status", JStr "success"); ("data", JList [
    JObj [("underlying_spot_price", JInt 22000);
          ("call_options", market_data 100 90 10 0); ("put_options", market_data 40 50 12 0)]])].

Lemma no_volume_zero_filtered_witness :
  exists r, calculate_indicators no_strings (JObj idle_chain_kv) = Ok r /\
    diff_oi_value_2 r = 0%float.
Proof.
  eexists. split; [vm_compute; reflexivity|].
  refine (proj2 (proj2 (no_volume_zero_filtered no_strings idle_chain_kv _ _ eq_refl _)) _ _).
  - vm_compute. reflexivity.
  - intros row c Hin Hc. simpl in Hin.
    destruct Hin as [<-|[]]; vm_compute in Hc; injection Hc as <-; reflexivity.
  - intros row p Hin Hp. simpl in Hin.
    destruct Hin as [<-|[]]; vm_compute in Hp; injection Hp as <-; reflexivity.
Defined.

(** X5: calculate_indicators on a payload with status "success" and a [data]
    list whose numeric fields all convert: it raises [AttributeError] exactly
    when some row is not a dict, or has a [call_options] or [put_options]
    that is present but not a dict (e.g. null), or one whose [market_data]
    is present but not a dict; otherwise it returns normally. *)
Theorem attribute_error_iff_bad_shape (parse_float : string -> option float)
    (kv : list (string * json)) (rows : list json) :
  status_ok (dict_get kv "status" JNull) = true ->
  dict_get kv "data" (JList []) = JList rows ->
  forallb conv_row rows = true ->
  (calculate_indicators parse_float (JObj kv) = Raise AttributeError <->
     forallb shape_row rows = false) /\
  (forallb shape_row rows = true -> exists r, calculate_indicators parse_float (JObj kv) = Ok r).
Proof.
  intros Hs Hd Hc. unfold calculate_indicators. simpl.
  unfold dict_get in Hs, Hd. rewrite Hs, Hd. simpl.
  destruct (run_rows_shape parse_float rows acc0 Hc) as [H1 H2].
  destruct (forallb shape_row rows).
  - destruct (H1 eq_refl) as [a ->]. simpl. split; [split; discriminate | eauto].
  - rewrite (H2 eq_refl). simpl. split; [split; reflexivity | discriminate].
Qed.

Definition null_row_kv : list (string * json) :=
  [("status", JStr "success"); ("data", JList [
    JObj [("underlying_spot_price", JInt 22000); ("call_options", JNull)]])].

Lemma attribute_error_iff_bad_shape_witness :
  calculate_indicators no_strings (JObj null_row_kv) = Raise AttributeError.
Proof.
  apply (proj1 (attribute_error_iff_bad_shape no_strings null_row_kv
                  [JObj [("underlying_spot_price", JInt 22000); ("call_options", JNull)]]
                  eq_refl eq_refl eq_refl)).
  reflexivity.
Defined.

End RowClaims.

Module StoreLemmas.
Import Clock Store StoreOps BucketLemmas.
#[local] Opaque ts_str minute_bucket fmt_date _today_ist.

Lemma substring_app_prefix (p s : string) :
  substring 0 (String.length p) (p ++ s) = p.
Proof.
  induction p as [|c p IH]; simpl; [destruct s; reflexivity | rewrite IH; reflexivity].
Qed.

Lemma bucket_key_ts (r : snapshot) (t : Z) :
  snap_timestamp r = ts_str t -> bucket_key r = minute_bucket t.
Proof.
  intro H. unfold bucket_key. rewrite H, ts_str_bucket, <- (minute_bucket_length t).
  apply substring_app_prefix.
Qed.

Lemma max_id_ge (rows : list snapshot) (r : snapshot) :
  In r rows -> (snap_id r <= max_id rows)%Z.
Proof.
  induction rows as [|r' rows IH]; simpl; [contradiction|].
  intros [<-|H]; [lia | specialize (IH H); lia].
Qed.

Lemma strongly_sorted_snoc (l : list Z) (x : Z) :
  StronglySorted Z.lt l -> Forall (fun y => (y < x)%Z) l -> StronglySorted Z.lt (l ++ [x]).
Proof.
  induction l as [|y l IH]; simpl; intros Hs Hf.
  - repeat constructor.
  - apply StronglySorted_inv in Hs as [Hs Hy]. inversion Hf as [|? ? Hyx Hf']; subst.
    constructor; [apply IH; assumption|].
    apply Forall_app. split; [exact Hy | repeat constructor; exact Hyx].
Qed.

Lemma store_ok_ext (st st' : store) :
  snapshots st' = snapshots st -> seq st' = seq st -> store_ok st -> store_ok st'.
Proof. unfold store_ok. intros -> ->. auto. Qed.

Lemma store_ok_nil (st : store) : snapshots st = [] -> store_ok st.
Proof. unfold store_ok. intros ->. repeat constructor. Qed.

Lemma check_and_clear_cases (st : store) (t : Z) :
  (check_and_clear_old_data st t = (st, false)) \/
  (check_and_clear_old_data st t = (delete_snapshots st, true)).
Proof.
  unfold check_and_clear_old_data.
  destruct (max_date (snapshots st)); [|auto].
  destruct (negb _); auto.
Qed.

Lemma check_and_clear_ok (st : store) (t : Z) :
  store_ok st -> store_ok (fst (check_and_clear_old_data st t)) /\
  seq (fst (check_and_clear_old_data st t)) = seq st.
Proof.
  intro H. destruct (check_and_clear_cases st t) as [-> | ->]; simpl; [auto|].
  split; [apply store_ok_nil; reflexivity | reflexivity].
Qed.

Lemma url_change_ok (st : store) (u : string) :
  store_ok st -> store_ok (fst (check_and_clear_for_url_change st u)) /\
  seq (fst (check_and_clear_for_url_change st u)) = seq st.
Proof.
  intro H. unfold check_and_clear_for_url_change.
  destruct (_ && _); simpl.
  - split; [apply store_ok_nil; reflexivity | reflexivity].
  - split; [exact (store_ok_ext st _ eq_refl eq_refl H) | reflexivity].
Qed.

Lemma save_snapshot_ok (st : store) (t : Z) ind fut raw :
  store_ok st -> store_ok (fst (save_snapshot st t ind fut raw)).
Proof.
  intro H. destruct (check_and_clear_ok st t H) as [H1 _].
  unfold save_snapshot.
  set (st1 := fst (check_and_clear_old_data st t)) in *.
  destruct (lookup_bucket (snapshots st1) (minute_bucket t)) as [r|] eqn:Hl; [exact H1|].
  simpl. destruct H1 as [Hts [Hnd [Hss Hle]]].
  set (row_id := (Z.max (seq st1) (max_id (snapshots st1)) + 1)%Z).
  assert (Hlt : Forall (fun r => (snap_id r < row_id)%Z) (snapshots st1)).
  { apply Forall_forall. intros r Hr. pose proof (max_id_ge _ _ Hr). unfold row_id. lia. }
  unfold store_ok. cbn [snapshots seq metadata]. split; [|split; [|split]].
  - apply Forall_app. split; [exact Hts | constructor; [exists t; reflexivity | constructor]].
  - rewrite map_app. apply NoDup_app; [exact Hnd | repeat constructor; simpl; tauto |].
    intros k Hk [Hk'|[]]. apply in_map_iff in Hk as [r [Hrk Hr]].
    pose proof (find_none _ _ Hl r Hr) as Hf. simpl in Hf.
    rewrite Forall_forall in Hts. destruct (Hts r Hr) as [t' Ht'].
    rewrite Ht' in Hf. rewrite (bucket_key_ts r t' Ht') in Hrk.
    assert (Hb : minute_bucket t = minute_bucket t').
    { rewrite Hrk, <- Hk'. symmetry. apply bucket_key_ts. reflexivity. }
    rewrite (proj2 (StoreClaims.like_bucket_ts t' t) Hb) in Hf. discriminate.
  - rewrite map_app. apply strongly_sorted_snoc; [exact Hss|].
    apply Forall_forall. intros x Hx. apply in_map_iff in Hx as [r [<- Hr]].
    rewrite Forall_forall in Hlt. exact (Hlt r Hr).
  - apply Forall_app. split.
    + apply Forall_forall. intros r Hr. rewrite Forall_forall in Hlt.
      specialize (Hlt r Hr). simpl. lia.
    + repeat constructor. simpl. lia.
Qed.

Lemma apply_op_ok (st : store) (op : store_op) :
  store_ok st -> store_ok (fst (apply_op st op)).
Proof.
  intro H. destruct op as [|t|u|tok exp|t ind fut raw]; simpl.
  - exact (store_ok_ext st _ eq_refl eq_refl H).
  - exact (proj1 (check_and_clear_ok st t H)).
  - exact (proj1 (url_change_ok st u H)).
  - exact (store_ok_ext st _ eq_refl eq_refl H).
  - pose proof (save_snapshot_ok st t ind fut raw H) as Hs.
    destruct (save_snapshot st t ind fut raw). exact Hs.
Qed.

Lemma check_and_clear_seq (st : store) (t : Z) :
  seq (fst (check_and_clear_old_data st t)) = seq st.
Proof. destruct (check_and_clear_cases st t) as [-> | ->]; reflexivity. Qed.

Lemma save_snapshot_seq (st : store) (t : Z) ind fut raw :
  (seq st <= seq (fst (save_snapshot st t ind fut raw)))%Z /\
  (already_existed (snd (save_snapshot st t ind fut raw)) = false ->
   res_id (snd (save_snapshot st t ind fut raw)) = seq (fst (save_snapshot st t ind fut raw)) /\
   (seq st < seq (fst (save_snapshot st t ind fut raw)))%Z).
Proof.
  unfold save_snapshot. rewrite <- (check_and_clear_seq st t).
  set (st1 := fst (check_and_clear_old_data st t)).
  destruct (lookup_bucket (snapshots st1) (minute_bucket t)); simpl.
  - split; [lia | discriminate].
  - split; [lia | split; [reflexivity | lia]].
Qed.

Lemma apply_op_seq (st : store) (op : store_op) :
  (seq st <= seq (fst (apply_op st op)))%Z /\
  (forall x, snd (apply_op st op) = Some x -> already_existed x = false ->
   res_id x = seq (fst (apply_op st op)) /\ (seq st < seq (fst (apply_op st op)))%Z).
Proof.
  destruct op as [|t|u|tok exp|t ind fut raw]; simpl.
  - split; [lia | discriminate].
  - rewrite check_and_clear_seq. split; [lia | discriminate].
  - unfold check_and_clear_for_url_change. destruct (_ && _); simpl; split; (lia || discriminate).
  - split; [lia | discriminate].
  - pose proof (save_snapshot_seq st t ind fut raw) as [H1 H2].
    destruct (save_snapshot st t ind fut raw) as [st' r]. simpl in *.
    split; [exact H1 | intros x [= <-]; exact H2].
Qed.

Lemma run_ops_ids (st : store) (ops : list store_op) :
  StronglySorted Z.lt (inserted_ids (snd (run_ops st ops))) /\
  Forall (fun x => (seq st < x <= seq (fst (run_ops st ops)))%Z) (inserted_ids (snd (run_ops st ops))) /\
  (seq st <= seq (fst (run_ops st ops)))%Z.
Proof.
  revert st. induction ops as [|op ops IH]; intro st; simpl.
  - split; [constructor | split; [constructor | lia]].
  - pose proof (apply_op_seq st op) as [H1 H2].
    destruct (apply_op st op) as [st1 r]. simpl in H1, H2.
    specialize (IH st1). destruct (run_ops st1 ops) as [st2 rs]. simpl in *.
    destruct IH as [Hs [Hf Hq]].
    assert (Hf' : Forall (fun x => (seq st < x <= seq st2)%Z) (inserted_ids rs)).
    { eapply Forall_impl; [|exact Hf]. simpl. intros a Ha. lia. }
    destruct r as [x|]; [|split; [exact Hs | split; [exact Hf' | lia]]].
    unfold inserted_ids. simpl. destruct (already_existed x) eqn:Ex; simpl.
    + split; [exact Hs | split; [exact Hf' | lia]].
    + destruct (H2 x eq_refl Ex) as [Hid Hlt].
      fold (inserted_ids rs). split; [|split; [|lia]].
      * constructor; [exact Hs|]. eapply Forall_impl; [|exact Hf]. simpl. intros a Ha. lia.
      * constructor; [lia | exact Hf'].
Qed.

Lemma run_ops_ok (st : store) (ops : list store_op) :
  store_ok st -> store_ok (fst (run_ops st ops)).
Proof.
  revert st. induction ops as [|op ops IH]; intros st H; simpl; [exact H|].
  pose proof (apply_op_ok st op H) as H1.
  destruct (apply_op st op) as [st1 r]. simpl in H1.
  specialize (IH st1 H1). destruct (run_ops st1 ops) as [st2 rs]. exact IH.
Qed.

End StoreLemmas.

Module StoreExtras.
Import Clock Store StoreOps BucketLemmas Samples StoreLemmas.
Lemma today_ist_utc (t : Z) : (t mod 86400 < 66600)%Z -> _today_ist t = fmt_date t.
Proof.
  intro H. unfold _today_ist, fmt_date, _IST.
  replace ((t + 19800) / 86400)%Z with (t / 86400)%Z; [reflexivity|].
  pose proof (Z.mod_pos_bound t 86400 ltac:(lia)).
  apply Z.div_unique with (t mod 86400 + 19800)%Z; [lia|].
  pose proof (Z.div_mod t 86400 ltac:(lia)). lia.
Qed.

#[local] Opaque ts_str minute_bucket fmt_date _today_ist.

Lemma max_date_none (rows : list snapshot) : max_date rows = None -> rows = [].
Proof.
  destruct rows as [|r rs]; [reflexivity|]. simpl.
  destruct (max_date rs); [destruct (_ <? _)%string|]; discriminate.
Qed.

Lemma max_date_all (rows : list snapshot) (d : string) :
  Forall (fun r => snap_date r = d) rows -> rows <> [] -> max_date rows = Some d.
Proof.
  induction rows as [|r rs IH]; intros Hf Hne; [contradiction|].
  inversion_clear Hf as [|? ? Hr Hrs]. simpl.
  destruct rs as [|r' rs'].
  - simpl. rewrite Hr. reflexivity.
  - rewrite (IH Hrs ltac:(discriminate)). rewrite Hr.
    destruct (_ <? _)%string; reflexivity.
Qed.


(** X6: check_and_clear_old_data: it clears only a non-empty table, and then
    deletes every row and keeps the AUTOINCREMENT counter and the metadata;
    when it does not clear, the store is unchanged. Afterwards the table is
    empty or its latest date is the UTC+5:30 date of the instant, so a
    second call at the same instant clears nothing. *)
Theorem check_and_clear_post (st : store) (t : Z) :
  let p := check_and_clear_old_data st t in
  (snd p = true -> snapshots st <> [] /\ snapshots (fst p) = [] /\
     seq (fst p) = seq st /\ metadata (fst p) = metadata st) /\
  (snd p = false -> fst p = st) /\
  (snapshots (fst p) = [] \/ max_date (snapshots (fst p)) = Some (_today_ist t)) /\
  check_and_clear_old_data (fst p) t = (fst p, false).
Proof.
  cbv zeta. remember (check_and_clear_old_data st t) as p eqn:Hp.
  unfold check_and_clear_old_data in Hp.
  destruct (max_date (snapshots st)) as [d|] eqn:Hm.
  - destruct (String.eqb d (_today_ist t)) eqn:Hd; simpl in Hp; subst p; simpl.
    + apply String.eqb_eq in Hd. subst d.
      split; [discriminate|]. split; [reflexivity|].
      split; [right; exact Hm|]. apply StoreClaims.check_and_clear_today. exact Hm.
    + split.
      * intros _. split; [intros He; rewrite He in Hm; discriminate|]. auto.
      * split; [discriminate|]. split; [left; reflexivity|].
        apply StoreClaims.check_and_clear_empty. reflexivity.
  - subst p. simpl. split; [discriminate|]. split; [reflexivity|].
    pose proof (max_date_none _ Hm) as He.
    split; [left; exact He|]. apply StoreClaims.check_and_clear_empty. exact He.
Qed.

Definition sample_ops : list store_op :=
  [OpSave t_0415 zero_indicators no_fut JNull;
   OpSave t_041530 zero_indicators no_fut JNull;
   OpSave t_0416 zero_indicators no_fut JNull;
   OpUrlChange "upstox|Nifty 50|2026-03-05|env";
   OpPersist (Some "tok") (Some "2026-03-05");
   OpSave t_2000 zero_indicators no_fut JNull;
   OpClearOld t_2000;
   OpSave t_0415 zero_indicators no_fut JNull].

(** X7: Any sequence of calls to init_db, check_and_clear_old_data,
    check_and_clear_for_url_change, persist_session and save_snapshot keeps
    the table well formed: every timestamp is a [%Y-%m-%dT%H:%M:%SZ] string,
    no two rows share a minute bucket, ids increase in rowid order and none
    exceeds the AUTOINCREMENT counter. *)
Theorem store_invariant_run_ops (st : store) (ops : list store_op) :
  store_ok st -> store_ok (fst (run_ops st ops)).
Proof. apply run_ops_ok. Qed.

Lemma store_invariant_run_ops_witness :
  store_ok empty_store /\ store_ok (fst (run_ops empty_store sample_ops)).
Proof.
  assert (H : store_ok empty_store) by (apply store_ok_nil; reflexivity).
  split; [exact H | exact (store_invariant_run_ops empty_store sample_ops H)].
Defined.

(** X8: Over any sequence of store calls, the ids of the rows that save_snapshot
    inserts (the ones it reports with [already_existed = False]) strictly
    increase, all lie above the AUTOINCREMENT counter at the start and at or
    below the counter at the end: an id is never reused, also after the table
    was cleared. *)
Theorem inserted_ids_increase (st : store) (ops : list store_op) :
  StronglySorted Z.lt (seq st :: inserted_ids (snd (run_ops st ops))) /\
  Forall (fun x => (x <= seq (fst (run_ops st ops)))%Z) (inserted_ids (snd (run_ops st ops))).
Proof.
  destruct (run_ops_ids st ops) as [Hs [Hf _]]. split.
  - constructor; [exact Hs|]. eapply Forall_impl; [|exact Hf]. simpl. intros a Ha. lia.
  - eapply Forall_impl; [|exact Hf]. simpl. intros a Ha. lia.
Qed.

(** X9: Before 18:30 UTC the UTC date and the UTC+5:30 date agree, so a
    save_snapshot on a table whose rows all carry the current UTC date never
    deletes a row: it keeps the table as it is (a row of the minute bucket
    exists) or appends exactly one row dated today, with the full-second
    timestamp and the id it returns. *)
Theorem save_before_1830_keeps_rows (st : store) (t : Z) ind fut raw :
  (t mod 86400 < 66600)%Z ->
  Forall (fun r => snap_date r = fmt_date t) (snapshots st) ->
  let p := save_snapshot st t ind fut raw in
  Forall (fun r => snap_date r = fmt_date t) (snapshots (fst p)) /\
  ((already_existed (snd p) = true /\ snapshots (fst p) = snapshots st) \/
   (already_existed (snd p) = false /\
    snapshots (fst p) = (snapshots st ++ [mkSnap (res_id (snd p)) (ts_str t) (fmt_date t) ind fut raw])%list)).
Proof.
  intros Ht Hf.
  assert (Hc : check_and_clear_old_data st t = (st, false)).
  { destruct (snapshots st) as [|r rs] eqn:E.
    - apply StoreClaims.check_and_clear_empty. exact E.
    - apply StoreClaims.check_and_clear_today. rewrite E, (today_ist_utc t Ht).
      apply max_date_all; [exact Hf | discriminate]. }
  cbv zeta. unfold save_snapshot. rewrite Hc. simpl.
  destruct (lookup_bucket (snapshots st) (minute_bucket t)); simpl.
  - split; [exact Hf | left; split; reflexivity].
  - split; [|right; split; reflexivity].
    apply Forall_app. split; [exact Hf | constructor; [reflexivity | constructor]].
Qed.

Lemma save_before_1830_keeps_rows_witness :
  let st := fst (save_snapshot empty_store t_0415 zero_indicators no_fut JNull) in
  let p := save_snapshot st t_041530 zero_indicators no_fut JNull in
  Forall (fun r => snap_date r = fmt_date t_041530) (snapshots (fst p)) /\
  ((already_existed (snd p) = true /\ snapshots (fst p) = snapshots st) \/
   (already_existed (snd p) = false /\
    snapshots (fst p) = (snapshots st ++
      [mkSnap (res_id (snd p)) (ts_str t_041530) (fmt_date t_041530) zero_indicators no_fut JNull])%list)).
Proof.
  apply save_before_1830_keeps_rows; [vm_compute; reflexivity|].
  vm_compute. repeat constructor.
Defined.

End StoreExtras.

Module SessionLemmas.
Import Store Scheduler Sessions.
Open Scope string_scope.

Lemma meta_get_app (m m' : list (string * string)) (k : string) :
  meta_get (m ++ m') k = match meta_get m k with Some x => Some x | None => meta_get m' k end.
Proof.
  unfold meta_get. induction m as [|[k0 v0] m IH]; [reflexivity|]. simpl.
  destruct (String.eqb k0 k); [reflexivity | exact IH].
Qed.

Lemma meta_get_insert (m : list (string * string)) (k v k' : string) :
  meta_get (meta_insert_or_ignore m k v) k' =
  match meta_get m k' with Some x => Some x | None => if String.eqb k k' then Some v else None end.
Proof.
  unfold meta_insert_or_ignore. destruct (meta_get m k) as [x|] eqn:E.
  - destruct (meta_get m k') eqn:E'; [reflexivity|].
    destruct (String.eqb k k') eqn:Ek; [|reflexivity].
    apply String.eqb_eq in Ek. subst. congruence.
  - rewrite meta_get_app. destruct (meta_get m k'); [reflexivity|].
    unfold meta_get. simpl. destruct (String.eqb k k'); reflexivity.
Qed.

Lemma meta_get_update_other (m : list (string * string)) (k v k' : string) :
  k <> k' -> meta_get (meta_update m k v) k' = meta_get m k'.
Proof.
  intro Hne. unfold meta_get, meta_update.
  induction m as [|[k0 v0] m IH]; [reflexivity|]. simpl.
  destruct (String.eqb k0 k) eqn:E; simpl.
  - apply String.eqb_eq in E. subst k0.
    apply String.eqb_neq in Hne. rewrite Hne. exact IH.
  - destruct (String.eqb k0 k'); [reflexivity | exact IH].
Qed.

Lemma meta_insert_present (m : list (string * string)) (k v : string) :
  meta_get m k <> None -> meta_insert_or_ignore m k v = m.
Proof.
  unfold meta_insert_or_ignore. destruct (meta_get m k); [reflexivity | contradiction].
Qed.

Definition keys_present (m : list (string * string)) : Prop :=
  forall k, In k db_keys -> meta_get m k <> None.

Lemma init_db_noop (st : store) : keys_present (metadata st) -> init_db st = st.
Proof.
  intro H. destruct st as [rows s m]. unfold init_db. simpl in *.
  rewrite (meta_insert_present m "current_url"), (meta_insert_present m "current_date"),
    (meta_insert_present m "session_token"), (meta_insert_present m "session_expiry_date");
    [reflexivity | apply H; simpl; tauto ..].
Qed.

Lemma init_db_get (st : store) (k : string) :
  meta_get (metadata (init_db st)) k =
  match meta_get (metadata st) k with
  | Some x => Some x
  | None => if existsb (String.eqb k) db_keys then Some "" else None
  end.
Proof.
  unfold init_db. simpl. rewrite !meta_get_insert.
  destruct (meta_get (metadata st) k); [reflexivity|].
  unfold db_keys. cbn [existsb]. rewrite !(String.eqb_sym k).
  destruct (String.eqb "current_url" k); [reflexivity|].
  destruct (String.eqb "current_date" k); [reflexivity|].
  destruct (String.eqb "session_token" k); [reflexivity|].
  destruct (String.eqb "session_expiry_date" k); reflexivity.
Qed.

Lemma init_db_present (st : store) : keys_present (metadata (init_db st)).
Proof.
  intros k Hk. rewrite init_db_get. destruct (meta_get (metadata st) k); [discriminate|].
  replace (existsb (String.eqb k) db_keys) with true; [discriminate|].
  symmetry. apply existsb_exists. exists k. split; [exact Hk | apply String.eqb_refl].
Qed.

Lemma update_present (m : list (string * string)) (k v : string) :
  keys_present m -> keys_present (meta_update m k v).
Proof.
  intros H k' Hk'. destruct (String.eqb k k') eqn:E.
  - apply String.eqb_eq in E. subst k'. rewrite StoreClaims.meta_get_update.
    destruct (meta_get m k) eqn:E'; [discriminate | exfalso; exact (H k Hk' E')].
  - apply String.eqb_neq in E. rewrite meta_get_update_other by exact E. exact (H k' Hk').
Qed.

Lemma persist_present (st : store) (tok exp : option string) :
  keys_present (metadata st) -> keys_present (metadata (persist_session st tok exp)).
Proof. intro H. unfold persist_session. simpl. apply update_present, update_present, H. Qed.

Lemma or_none_or_empty (o : option string) : or_none (Some (or_empty o)) = or_none o.
Proof. destruct o; reflexivity. Qed.

Lemma load_persist (st : store) (tok exp : option string) :
  keys_present (metadata st) ->
  load_persisted_session (persist_session st tok exp) = (or_none tok, or_none exp).
Proof.
  intro H. unfold load_persisted_session, persist_session. simpl.
  rewrite !StoreClaims.meta_get_update.
  rewrite (meta_get_update_other _ "session_expiry_date" _ "session_token"),
    (meta_get_update_other _ "session_token" _ "session_expiry_date") by discriminate.
  rewrite !StoreClaims.meta_get_update.
  destruct (meta_get (metadata st) "session_token") eqn:E1;
    [|exfalso; apply (H "session_token"); [simpl; tauto | exact E1]].
  destruct (meta_get (metadata st) "session_expiry_date") eqn:E2;
    [|exfalso; apply (H "session_expiry_date"); [simpl; tauto | exact E2]].
  rewrite !or_none_or_empty. reflexivity.
Qed.

Lemma or_none_nonempty (o : option string) (e : string) : or_none o = Some e -> e <> "".
Proof.
  destruct o as [s|]; simpl; [|discriminate].
  destruct (String.eqb s "") eqn:E; [discriminate|]. intros [= <-].
  apply String.eqb_neq. exact E.
Qed.

Lemma startup_persisted (st : store) (tok exp : option string) :
  keys_present (metadata st) ->
  startup (persist_session st tok exp) =
    (if session_ready (mkSession (or_none tok) (or_none exp))
     then mkSession (or_none tok) (or_none exp) else fresh_session,
     persist_session st tok exp,
     session_ready (mkSession (or_none tok) (or_none exp))).
Proof.
  intro H. unfold startup.
  rewrite (init_db_noop _ (persist_present st tok exp H)).
  unfold restore_session_from_db. rewrite (load_persist st tok exp H).
  unfold session_ready. simpl.
  destruct (or_none exp) as [e|] eqn:Ee; [|reflexivity].
  pose proof (or_none_nonempty _ _ Ee) as Hne. apply String.eqb_neq in Hne.
  rewrite Hne. reflexivity.
Qed.

End SessionLemmas.

Module SessionExtras.
Import Store Scheduler Sessions SessionLemmas.
Open Scope string_scope.

(** X10: init_db keeps the snapshot rows and the AUTOINCREMENT counter, leaves
    every existing metadata value as it is ([INSERT OR IGNORE]), adds the
    four keys [current_url], [current_date], [session_token] and
    [session_expiry_date] with the value "" where they are missing and no
    other key; running it twice is the same as running it once. *)
Theorem init_db_contract (st : store) :
  snapshots (init_db st) = snapshots st /\ seq (init_db st) = seq st /\
  (forall k, meta_get (metadata (init_db st)) k =
     match meta_get (metadata st) k with
     | Some x => Some x
     | None => if existsb (String.eqb k) db_keys then Some "" else None
     end) /\
  init_db (init_db st) = init_db st.
Proof.
  split; [reflexivity|]. split; [reflexivity|]. split.
  - intro k. apply init_db_get.
  - apply init_db_noop, init_db_present.
Qed.



(** X12: A restart after set_session (on a database init_db has set up) restores
    the session: startup, which runs init_db and then
    restore_session_from_db in a fresh process, leaves the store as it was
    and returns exactly the session set_session installed, and [True], when
    that session is ready (a non-empty expiry date); otherwise the fresh
    empty session and [False]. *)
Theorem restart_after_set_session (st : store) (tok exp : option string) :
  let p := set_session (init_db st) tok exp in
  startup (snd p) =
    (if session_ready (fst p) then fst p else fresh_session, snd p, session_ready (fst p)).
Proof.
  cbv zeta. unfold set_session. simpl. apply startup_persisted, init_db_present.
Qed.

End SessionExtras.

Module RetryLemmas.
Import Retry.
Open Scope Z_scope.

Section Loop.
Context {A E : Type}.
Variable fn : nat -> attempt A E.
Variable retries : nat.

Definition waits (i n : nat) : list Z :=
  map (fun j => wait_for (retry_hint (fn j)) j) (List.seq i n).

Lemma retry_from_success (k : nat) (v : A) :
  (k < retries)%nat ->
  (forall j, (j < k)%nat -> exists e ra, fn j = Raised e ra) ->
  fn k = Returned v ->
  forall n i, (i + n = retries)%nat -> (i <= k)%nat ->
  retry_from A E fn retries i n = (RetValue v, waits i (k - i)).
Proof.
  intros Hk Hr Hv n. induction n as [|n IH]; intros i Hn Hi; [lia|].
  simpl. destruct (Nat.eq_dec i k) as [->|Hne].
  - rewrite Hv, Nat.sub_diag. reflexivity.
  - destruct (Hr i ltac:(lia)) as [e [ra Hf]]. rewrite Hf.
    replace (Nat.eqb i (retries - 1)) with false by (symmetry; apply Nat.eqb_neq; lia).
    rewrite (IH (S i) ltac:(lia) ltac:(lia)).
    replace (k - i)%nat with (S (k - S i)) by lia.
    unfold waits. simpl. rewrite Hf. reflexivity.
Qed.

Lemma retry_from_exhausted (e : E) (ra : option Z) :
  (0 < retries)%nat ->
  (forall j, (j < retries - 1)%nat -> exists e' ra', fn j = Raised e' ra') ->
  fn (retries - 1)%nat = Raised e ra ->
  forall n i, (i + n = retries)%nat -> (i < retries)%nat ->
  retry_from A E fn retries i n = (Reraised e, waits i (retries - 1 - i)).
Proof.
  intros Hpos Hr Hl n. induction n as [|n IH]; intros i Hn Hi; [lia|].
  simpl. destruct (Nat.eq_dec i (retries - 1)) as [->|Hne].
  - rewrite Hl, Nat.eqb_refl, Nat.sub_diag. reflexivity.
  - destruct (Hr i ltac:(lia)) as [e' [ra' Hf]]. rewrite Hf.
    replace (Nat.eqb i (retries - 1)) with false by (symmetry; apply Nat.eqb_neq; lia).
    rewrite (IH (S i) ltac:(lia) ltac:(lia)).
    replace (retries - 1 - i)%nat with (S (retries - 1 - S i)) by lia.
    unfold waits. simpl. rewrite Hf. reflexivity.
Qed.

End Loop.

Lemma sum_pow2 (n s : nat) :
  fold_right Z.add 0 (map (fun j => 2 ^ Z.of_nat j) (List.seq s n)) =
  2 ^ Z.of_nat (s + n) - 2 ^ Z.of_nat s.
Proof.
  revert s. induction n as [|n IH]; intro s; simpl.
  - rewrite Nat.add_0_r. lia.
  - rewrite IH. replace (s + S n)%nat with (S s + n)%nat by lia.
    rewrite (Nat2Z.inj_succ s), Z.pow_succ_r by lia. lia.
Qed.

End RetryLemmas.

Module RetryExtras.
Import Retry RetryLemmas.
Open Scope Z_scope.


Definition flaky (i : nat) : attempt Z unit :=
  match i with
  | O => Raised tt (Some 3)
  | 1%nat => Raised tt None
  | _ => Returned 42
  end.



Definition always_down (i : nat) : attempt Z unit := Raised tt None.


End RetryExtras.

Module ConnectLemmas.
Import Store Scheduler Future Sessions Routes SessionLemmas.
Open Scope string_scope.

Lemma connect_ok (sess : session) (st : store) (body : option json) (tok e : string) :
  body_str (request_body body) "token" = Ok tok ->
  body_str (request_body body) "expiry_date" = Ok e -> e <> "" ->
  connect sess st body =
    Ok (mkSession (or_none (if String.eqb tok "" then None else Some tok)) (or_none (Some e)),
        persist_session (fst (check_and_clear_for_url_change st (source_identifier e tok)))
          (if String.eqb tok "" then None else Some tok) (Some e),
        Connected (snd (check_and_clear_for_url_change st (source_identifier e tok)))).
Proof.
  intros Ht He Hne. unfold connect. rewrite Ht. simpl. rewrite He. simpl.
  apply String.eqb_neq in Hne. rewrite Hne.
  destruct (check_and_clear_for_url_change st (source_identifier e tok)). reflexivity.
Qed.

Lemma connect_missing (sess : session) (st : store) (body : option json) (tok : string) :
  body_str (request_body body) "token" = Ok tok ->
  body_str (request_body body) "expiry_date" = Ok "" ->
  connect sess st body = Ok (sess, st, MissingExpiry).
Proof. intros Ht He. unfold connect. rewrite Ht. simpl. rewrite He. reflexivity. Qed.

Lemma url_change_fields (st : store) (u : string) :
  let cur := match meta_get (metadata st) "current_url" with Some v => v | None => "" end in
  snd (check_and_clear_for_url_change st u) = negb (String.eqb cur "") && negb (String.eqb cur u) /\
  snapshots (fst (check_and_clear_for_url_change st u)) =
    (if negb (String.eqb cur "") && negb (String.eqb cur u) then [] else snapshots st) /\
  metadata (fst (check_and_clear_for_url_change st u)) = meta_update (metadata st) "current_url" u.
Proof.
  cbv zeta. unfold check_and_clear_for_url_change.
  destruct (_ && _); simpl; auto.
Qed.

Lemma url_change_present (st : store) (u : string) :
  keys_present (metadata st) -> keys_present (metadata (fst (check_and_clear_for_url_change st u))).
Proof.
  intro H. rewrite (proj2 (proj2 (url_change_fields st u))). apply update_present, H.
Qed.

Lemma source_identifier_nonempty (e t : string) : String.eqb (source_identifier e t) "" = false.
Proof. reflexivity. Qed.

Lemma or_none_tok (tok : string) :
  or_none (if String.eqb tok "" then None else Some tok) = (if String.eqb tok "" then None else Some tok).
Proof. destruct (String.eqb tok "") eqn:E; simpl; [reflexivity | rewrite E; reflexivity]. Qed.

End ConnectLemmas.

Module ConnectExtras.
Import Store Scheduler Future Sessions Routes RowShapes SessionLemmas ConnectLemmas.
Open Scope string_scope.


Definition connect_body (token expiry : string) : option json :=
  Some (JObj [("token", JStr token); ("expiry_date", JStr expiry)]).




End ConnectExtras.

Module IndicatorLemmas.
Import Clock Store Routes.
Open Scope string_scope.

Definition ts_le (a b : snapshot) : Prop :=
  String.leb (snap_timestamp a) (snap_timestamp b) = true.

Lemma insert_by_ts_perm (r : snapshot) (rows : list snapshot) :
  Permutation (insert_by_ts r rows) (r :: rows).
Proof.
  induction rows as [|r' rows IH]; simpl; [reflexivity|].
  destruct (String.leb (snap_timestamp r) (snap_timestamp r')); [reflexivity|].
  rewrite IH. apply perm_swap.
Qed.

Lemma sort_by_ts_perm (rows : list snapshot) : Permutation (sort_by_ts rows) rows.
Proof.
  induction rows as [|r rows IH]; simpl; [reflexivity|].
  rewrite insert_by_ts_perm, IH. reflexivity.
Qed.

Lemma insert_by_ts_sorted (r : snapshot) (rows : list snapshot) :
  Sorted ts_le rows -> Sorted ts_le (insert_by_ts r rows).
Proof.
  induction rows as [|r' rows IH]; intro Hs; simpl; [repeat constructor|].
  destruct (String.leb (snap_timestamp r) (snap_timestamp r')) eqn:E.
  - constructor; [exact Hs | constructor; exact E].
  - apply Sorted_inv in Hs as [Hs Hh]. constructor; [exact (IH Hs)|].
    assert (Hle : ts_le r' r).
    { unfold ts_le. destruct (String.leb_total (snap_timestamp r) (snap_timestamp r')) as [H|H];
        [rewrite H in E; discriminate | exact H]. }
    destruct rows as [|r'' rows]; simpl; [constructor; exact Hle|].
    destruct (String.leb (snap_timestamp r) (snap_timestamp r'')); constructor;
      [exact Hle | inversion Hh; assumption].
Qed.

Lemma sort_by_ts_sorted (rows : list snapshot) : Sorted ts_le (sort_by_ts rows).
Proof.
  induction rows as [|r rows IH]; simpl; [constructor|]. apply insert_by_ts_sorted, IH.
Qed.

Lemma fmt_date_nonempty (t : Z) : String.eqb (fmt_date t) "" = false.
Proof. unfold fmt_date. destruct (civil_from_days (t / 86400)) as [[y m] d]. reflexivity. Qed.

Lemma today_ist_nonempty (t : Z) : String.eqb (_today_ist t) "" = false.
Proof. apply fmt_date_nonempty. Qed.

End IndicatorLemmas.

Module IndicatorExtras.
Import Clock Store Routes IndicatorLemmas.
Open Scope string_scope.

(** X17: database.get_indicators_for_date(date_str): for a non-empty date it
    returns exactly the rows of that date, each as often as stored, ordered
    by timestamp ([ORDER BY timestamp ASC]); with no date or the empty
    string it uses the UTC+5:30 date of the current instant. *)
Theorem indicators_for_date_contract (st : store) (t : Z) (d : string) :
  d <> "" ->
  Permutation (get_indicators_for_date st t (Some d))
              (filter (fun r => String.eqb (snap_date r) d) (snapshots st)) /\
  Sorted ts_le (get_indicators_for_date st t (Some d)) /\
  get_indicators_for_date st t None = get_indicators_for_date st t (Some (_today_ist t)) /\
  get_indicators_for_date st t (Some "") = get_indicators_for_date st t (Some (_today_ist t)).
Proof.
  intro Hd. apply String.eqb_neq in Hd. unfold get_indicators_for_date.
  rewrite Hd, today_ist_nonempty.
  split; [apply sort_by_ts_perm|]. split; [apply sort_by_ts_sorted|]. split; reflexivity.
Qed.

Lemma indicators_for_date_contract_witness :
  let st := fst (save_snapshot Samples.empty_store Samples.t_0415
                   Samples.zero_indicators no_fut JNull) in
  Permutation (get_indicators_for_date st Samples.t_0416 (Some "2026-02-27"))
              (filter (fun r => String.eqb (snap_date r) "2026-02-27") (snapshots st)) /\
  Sorted ts_le (get_indicators_for_date st Samples.t_0416 (Some "2026-02-27")) /\
  get_indicators_for_date st Samples.t_0416 None =
    get_indicators_for_date st Samples.t_0416 (Some (_today_ist Samples.t_0416)) /\
  get_indicators_for_date st Samples.t_0416 (Some "") =
    get_indicators_for_date st Samples.t_0416 (Some (_today_ist Samples.t_0416)).
Proof. apply indicators_for_date_contract. discriminate. Defined.

(** X18: GET /api/indicators: without a [date] argument, or with one whose
    length is not 10, it answers for the UTC date of the current instant;
    a row save_snapshot has just inserted at that instant is then among the
    points, with the id and the full-second timestamp the save returned. *)
Theorem indicators_route_shows_new_row (st : store) (t : Z) (arg : option string)
    ind fut raw :
  let p := save_snapshot st t ind fut raw in
  already_existed (snd p) = false ->
  match arg with Some d => String.length d <> 10%nat | None => True end ->
  fst (get_indicators (fst p) t arg) = fmt_date t /\
  exists r, In r (snd (get_indicators (fst p) t arg)) /\
    snap_id r = res_id (snd p) /\ snap_timestamp r = ts_str t.
Proof.
  cbv zeta. intros Hn Ha.
  assert (Hp : _parse_date arg t = fmt_date t).
  { destruct arg as [d|]; [|reflexivity]. simpl.
    apply Nat.eqb_neq in Ha. rewrite Ha. reflexivity. }
  unfold get_indicators. rewrite Hp. split; [reflexivity|]. simpl.
  unfold get_indicators_for_date. rewrite fmt_date_nonempty.
  unfold save_snapshot in *.
  destruct (lookup_bucket _ _); simpl in *; [discriminate|].
  eexists. split.
  - eapply Permutation_in; [symmetry; apply sort_by_ts_perm|].
    apply filter_In. split; [apply in_or_app; right; left; reflexivity|].
    apply String.eqb_refl.
  - split; reflexivity.
Qed.

Lemma indicators_route_shows_new_row_witness :
  let p := save_snapshot Samples.empty_store Samples.t_2000
             Samples.zero_indicators no_fut JNull in
  fst (get_indicators (fst p) Samples.t_2000 (Some "today")) = fmt_date Samples.t_2000 /\
  exists r, In r (snd (get_indicators (fst p) Samples.t_2000 (Some "today"))) /\
    snap_id r = res_id (snd p) /\ snap_timestamp r = ts_str Samples.t_2000.
Proof.
  apply indicators_route_shows_new_row; [vm_compute; reflexivity | discriminate].
Defined.

End IndicatorExtras.

Module StringOrder.

Lemma compare_ot (a b : string) : String.compare a b = String_as_OT.compare a b.
Proof.
  revert b; induction a as [|c a IH]; intros [|d b]; simpl; try reflexivity;
    unfold Ascii.compare, Ascii_as_OT.compare; destruct (N.compare _ _); auto.
Qed.

Lemma compare_lt_trans (a b c : string) :
  String.compare a b = Lt -> String.compare b c = Lt -> String.compare a c = Lt.
Proof.
  rewrite !compare_ot. intros H1 H2.
  destruct String_as_OT.lt_strorder as [_ Htr]. exact (Htr a b c H1 H2).
Qed.

Lemma leb_cases (a b : string) : String.leb a b = true -> String.compare a b = Lt \/ a = b.
Proof.
  unfold String.leb. destruct (String.compare a b) eqn:E; try discriminate; intros _.
  - right. apply String.compare_eq_iff. exact E.
  - left. reflexivity.
Qed.

Lemma lt_leb (a b : string) : String.compare a b = Lt -> String.leb a b = true.
Proof. unfold String.leb. intros ->. reflexivity. Qed.

Lemma leb_trans (a b c : string) :
  String.leb a b = true -> String.leb b c = true -> String.leb a c = true.
Proof.
  intros H1 H2. destruct (leb_cases _ _ H1) as [L1|<-]; [|exact H2].
  destruct (leb_cases _ _ H2) as [L2|<-]; [|exact H1].
  apply lt_leb. exact (compare_lt_trans _ _ _ L1 L2).
Qed.

Lemma ltb_leb (a b : string) : String.ltb a b = true -> String.leb a b = true.
Proof. unfold String.ltb, String.leb. destruct (String.compare a b); easy. Qed.

Lemma not_ltb_leb (a b : string) : String.ltb a b = false -> String.leb b a = true.
Proof.
  unfold String.ltb, String.leb. rewrite (String.compare_antisym b a).
  destruct (String.compare a b); easy.
Qed.

Lemma leb_refl (a : string) : String.leb a a = true.
Proof. destruct (String.leb_total a a); assumption. Qed.

End StringOrder.

Module ProcessLemmas.
Import Clock Store Scheduler Future Sessions StoreOps Routes Process StringOrder StoreLemmas.
Open Scope string_scope.

Lemma latest_from (rows : list snapshot) (b r : snapshot) :
  fold_left (fun best r =>
    match best with
    | None => Some r
    | Some b => if String.ltb (snap_timestamp b) (snap_timestamp r) then Some r else Some b
    end) rows (Some b) = Some r ->
  (r = b \/ In r rows) /\ String.leb (snap_timestamp b) (snap_timestamp r) = true /\
  (forall r', In r' rows -> String.leb (snap_timestamp r') (snap_timestamp r) = true).
Proof.
  revert b. induction rows as [|x rows IH]; intros b H; simpl in H.
  - injection H as ->. split; [left; reflexivity|]. split; [apply leb_refl | contradiction].
  - destruct (String.ltb (snap_timestamp b) (snap_timestamp x)) eqn:E;
      destruct (IH _ H) as [Hin [Hle Hall]].
    + split; [right; destruct Hin as [->|Hin]; [left; reflexivity | right; exact Hin]|].
      split; [exact (leb_trans _ _ _ (ltb_leb _ _ E) Hle)|].
      intros r' [<-|Hr']; [exact Hle | exact (Hall r' Hr')].
    + split; [destruct Hin as [->|Hin]; [left; reflexivity | right; right; exact Hin]|].
      split; [exact Hle|].
      intros r' [<-|Hr']; [exact (leb_trans _ _ _ (not_ltb_leb _ _ E) Hle) | exact (Hall r' Hr')].
Qed.

Lemma latest_snapshot_max (rows : list snapshot) (r : snapshot) :
  latest_snapshot rows = Some r ->
  In r rows /\ (forall r', In r' rows -> String.leb (snap_timestamp r') (snap_timestamp r) = true).
Proof.
  destruct rows as [|x rows]; [discriminate|]. unfold latest_snapshot. simpl.
  intro H. destruct (latest_from rows x r H) as [Hin [Hle Hall]].
  split; [destruct Hin as [->|Hin]; [left; reflexivity | right; exact Hin]|].
  intros r' [<-|Hr']; [exact Hle | exact (Hall r' Hr')].
Qed.

Section Cases.
Variable parse_float : string -> option float.
Variable fetch_option_chain : string -> option string -> bool + json.
Variable fetch_future_quote : option string -> option json.

Lemma process_cases (sess : session) (st : store) (t : Z) (body : option json)
    (s' : session) (st' : store) (resp : process_response) (fetched : bool) :
  process parse_float fetch_option_chain fetch_future_quote sess st t body = Ok (s', st', resp, fetched) ->
  (resp = PMissingExpiry /\ s' = sess /\ st' = st /\ fetched = false) \/
  exists token e, body_str (request_body body) "token" = Ok token /\
    body_str (request_body body) "expiry_date" = Ok e /\ e <> "" /\
    s' = fst (set_session st (if String.eqb token "" then None else Some token) (Some e)) /\
    let st2 := fst (check_and_clear_for_url_change
                 (snd (set_session st (if String.eqb token "" then None else Some token) (Some e)))
                 (source_identifier e token)) in
    ((exists r, latest_snapshot (snapshots st2) = Some r /\ bucket_key r = minute_bucket t /\
                resp = PCached r /\ st' = st2 /\ fetched = false) \/
     (fetched = true /\
      (forall r, latest_snapshot (snapshots st2) = Some r -> bucket_key r <> minute_bucket t) /\
      ((st' = st2 /\ (resp = PBadRequest \/ resp = PFailed)) \/
       exists ind fut api saved, resp = PSaved ind fut saved /\
         save_snapshot st2 t ind fut api = (st', saved)))).
Proof.
  intro H. unfold process in H. cbv [bind] in H.
  destruct (body_str (request_body body) "token") as [token|x] eqn:Htok; [|discriminate].
  destruct (body_str (request_body body) "expiry_date") as [e|x] eqn:Hexp; [|discriminate].
  destruct (String.eqb e "") eqn:Ee.
  - injection H as <- <- <- <-. left. auto.
  - right. exists token, e. split; [reflexivity|]. split; [reflexivity|]. split; [apply String.eqb_neq; exact Ee|].
    unfold set_session in *. cbn [fst snd] in *.
    set (tok := if String.eqb token "" then None else Some token) in *.
    set (st2 := fst (check_and_clear_for_url_change (persist_session st tok (Some e))
                       (source_identifier e token))) in *.
    cbv zeta.
    destruct (latest_snapshot (snapshots st2)) as [r|] eqn:Hl;
      [destruct (String.eqb (substring 0 16 (snap_timestamp r)) (minute_bucket t)) eqn:Hb|].
    + injection H as <- <- <- <-. split; [reflexivity|]. left. exists r.
      split; [reflexivity|]. split; [apply String.eqb_eq; exact Hb|]. auto.
    + assert (Hno : forall r', Some r = Some r' -> bucket_key r' <> minute_bucket t).
      { intros r' [= <-] Heq. unfold bucket_key in Heq. rewrite Heq, String.eqb_refl in Hb.
        discriminate. }
      destruct (fetch_option_chain e tok) as [ve|api].
      * injection H as <- <- <- <-. split; [reflexivity|]. right. split; [reflexivity|].
        split; [exact Hno|]. left. split; [reflexivity|]. destruct ve; auto.
      * destruct (calculate_indicators parse_float api) as [ind|x].
        -- destruct (save_snapshot st2 t ind _ api) as [st3 saved] eqn:Hs.
           injection H as <- <- <- <-. split; [reflexivity|]. right. split; [reflexivity|].
           split; [exact Hno|]. right. do 4 eexists. split; [reflexivity | exact Hs].
        -- destruct x; injection H as <- <- <- <-; (split; [reflexivity|]); right;
             (split; [reflexivity|]); (split; [exact Hno|]); left; auto.
    + destruct (fetch_option_chain e tok) as [ve|api].
      * injection H as <- <- <- <-. split; [reflexivity|]. right. split; [reflexivity|].
        split; [discriminate|]. left. split; [reflexivity|]. destruct ve; auto.
      * destruct (calculate_indicators parse_float api) as [ind|x].
        -- destruct (save_snapshot st2 t ind _ api) as [st3 saved] eqn:Hs.
           injection H as <- <- <- <-. split; [reflexivity|]. right. split; [reflexivity|].
           split; [discriminate|]. right. do 4 eexists. split; [reflexivity | exact Hs].
        -- destruct x; injection H as <- <- <- <-; (split; [reflexivity|]); right;
             (split; [reflexivity|]); (split; [discriminate|]); left; auto.
Qed.

Lemma process_hit (sess : session) (st : store) (t : Z) (body : option json)
    (token e : string) (r : snapshot) :
  body_str (request_body body) "token" = Ok token ->
  body_str (request_body body) "expiry_date" = Ok e -> e <> "" ->
  let st2 := fst (check_and_clear_for_url_change
               (snd (set_session st (if String.eqb token "" then None else Some token) (Some e)))
               (source_identifier e token)) in
  latest_snapshot (snapshots st2) = Some r -> bucket_key r = minute_bucket t ->
  process parse_float fetch_option_chain fetch_future_quote sess st t body =
    Ok (fst (set_session st (if String.eqb token "" then None else Some token) (Some e)),
        st2, PCached r, false).
Proof.
  intros Ht He Hne st2 Hl Hb. unfold process. cbv [bind]. rewrite Ht, He.
  apply String.eqb_neq in Hne. rewrite Hne.
  unfold set_session in *. cbn [fst snd] in *. fold st2. cbv zeta.
  rewrite Hl. unfold bucket_key in Hb. rewrite Hb, String.eqb_refl. reflexivity.
Qed.

End Cases.

Lemma save_snapshot_meta (st : store) (t : Z) ind fut raw :
  metadata (fst (save_snapshot st t ind fut raw)) = metadata st.
Proof.
  unfold save_snapshot.
  assert (H : metadata (fst (check_and_clear_old_data st t)) = metadata st).
  { destruct (check_and_clear_cases st t) as [-> | ->]; reflexivity. }
  destruct (lookup_bucket _ _); exact H.
Qed.
End ProcessLemmas.

Module ProcessRestart.
Import Store Scheduler Sessions SessionLemmas ConnectLemmas.
Open Scope string_scope.

Lemma startup_after_url (st : store) (tok exp : option string) (b : store) (u : string) :
  keys_present (metadata st) ->
  metadata b = meta_update (metadata (persist_session st tok exp)) "current_url" u ->
  startup b =
    (if session_ready (mkSession (or_none tok) (or_none exp))
     then mkSession (or_none tok) (or_none exp) else fresh_session,
     b, session_ready (mkSession (or_none tok) (or_none exp))).
Proof.
  intros H Hm. unfold startup.
  assert (Hk : keys_present (metadata b)) by (rewrite Hm; apply update_present, persist_present, H).
  rewrite (init_db_noop _ Hk).
  assert (Hl : load_persisted_session b = (or_none tok, or_none exp)).
  { rewrite <- (load_persist st tok exp H). unfold load_persisted_session. rewrite Hm.
    rewrite (meta_get_update_other _ "current_url" _ "session_token"),
      (meta_get_update_other _ "current_url" _ "session_expiry_date") by discriminate.
    reflexivity. }
  unfold restore_session_from_db. rewrite Hl.
  unfold session_ready. simpl.
  destruct (or_none exp) as [e|] eqn:Ee; [|reflexivity].
  pose proof (or_none_nonempty _ _ Ee) as Hne. apply String.eqb_neq in Hne.
  rewrite Hne. reflexivity.
Qed.

End ProcessRestart.

Module ProcessExtras.
Import Clock Store Scheduler Future Sessions StoreOps Routes Process StringOrder StoreLemmas
  SessionLemmas ConnectLemmas ProcessLemmas ProcessRestart.
Open Scope string_scope.

(** X19: POST /api/process, cache hit: when it answers with a stored row, it has
    not called Upstox; the row is in the store, lies in the minute bucket of
    the current instant and has the greatest timestamp of the stored rows;
    and the same answer comes whatever the Upstox calls would have returned. *)
Theorem process_cache_hit (parse_float : string -> option float)
    (fetch_option_chain : string -> option string -> bool + json)
    (fetch_future_quote : option string -> option json)
    (sess : session) (st : store) (t : Z) (body : option json)
    (s' : session) (st' : store) (r : snapshot) (fetched : bool) :
  process parse_float fetch_option_chain fetch_future_quote sess st t body =
    Ok (s', st', PCached r, fetched) ->
  fetched = false /\ In r (snapshots st') /\ bucket_key r = minute_bucket t /\
  Forall (fun r' => String.leb (snap_timestamp r') (snap_timestamp r) = true) (snapshots st') /\
  (forall fetch' futq', process parse_float fetch' futq' sess st t body = Ok (s', st', PCached r, false)).
Proof.
  intro H.
  destruct (process_cases _ _ _ _ _ _ _ _ _ _ _ H)
    as [[Hr _]|[token [e [Ht [He [Hne [Hs Hrest]]]]]]]; [discriminate|].
  cbv zeta in Hrest.
  destruct Hrest as [[r0 [Hl [Hb [Hr [Hst Hf]]]]] | [Hf [Hno [[Hst [Hr|Hr]] | [ind [fut [api [saved [Hr _]]]]]]]]];
    try discriminate.
  injection Hr as <-. subst s' st' fetched.
  destruct (latest_snapshot_max _ _ Hl) as [Hin Hmax].
  split; [reflexivity|]. split; [exact Hin|]. split; [exact Hb|].
  split; [apply Forall_forall; exact Hmax|].
  intros f' q'. apply process_hit; assumption.
Qed.


Definition chain_ok : string -> option string -> bool + json := fun _ _ => inr Samples.two_strikes.
Definition chain_down : string -> option string -> bool + json := fun _ _ => inl false.
Definition no_future : option string -> option json := fun _ => None.
Definition process_body : option json := ConnectExtras.connect_body "abcd1234" "2026-03-05".

(** The store after a first [process] at 04:15:00 that fetched and saved. *)
Definition after_first : store :=
  match process Samples.no_strings chain_ok no_future fresh_session Samples.empty_store
          Samples.t_0415 process_body with
  | Ok (_, st, _, _) => st
  | Raise _ => Samples.empty_store
  end.

Lemma process_cache_hit_witness :
  exists s' st' r,
    process Samples.no_strings chain_ok no_future fresh_session after_first Samples.t_041530
      process_body = Ok (s', st', PCached r, false) /\
    In r (snapshots st') /\
    process Samples.no_strings chain_down no_future fresh_session after_first Samples.t_041530
      process_body = Ok (s', st', PCached r, false).
Proof.
  destruct (process Samples.no_strings chain_ok no_future fresh_session after_first
              Samples.t_041530 process_body) as [[[[s' st'] resp] fetched]|x] eqn:E;
    [|vm_compute in E; discriminate].
  destruct resp as [| r | | |]; try (vm_compute in E; discriminate).
  destruct (process_cache_hit _ _ _ _ _ _ _ _ _ _ _ E) as [-> [Hin [_ [_ Hall]]]].
  exists s', st', r. split; [reflexivity|]. split; [exact Hin | apply Hall].
Defined.


End ProcessExtras.

Module StripLemmas.
Import Future Routes.
Open Scope string_scope.

Lemma lstrip_head (s : string) :
  lstrip s = EmptyString \/ exists c s', lstrip s = String c s' /\ py_isspace c = false.
Proof.
  induction s as [|c s IH]; simpl; [left; reflexivity|].
  destruct (py_isspace c) eqn:E; [exact IH | right; exists c, s; auto].
Qed.

Lemma rstrip_cons (c : ascii) (s : string) :
  py_isspace c = false -> rstrip (String c s) = String c (rstrip s).
Proof. intro H. simpl. destruct (rstrip s); [rewrite H|]; reflexivity. Qed.

Lemma rstrip_String (c : ascii) (s : string) :
  rstrip (String c s) =
  match rstrip s with
  | EmptyString => if py_isspace c then EmptyString else String c EmptyString
  | r => String c r
  end.
Proof. reflexivity. Qed.

Lemma rstrip_idem (s : string) : rstrip (rstrip s) = rstrip s.
Proof.
  induction s as [|c s IH]; [reflexivity|]. rewrite rstrip_String.
  destruct (rstrip s) as [|d r] eqn:E.
  - destruct (py_isspace c) eqn:Ec; [reflexivity|]. simpl. rewrite Ec. reflexivity.
  - rewrite rstrip_String, IH. reflexivity.
Qed.

Lemma py_strip_idem (s : string) : py_strip (py_strip s) = py_strip s.
Proof.
  unfold py_strip. destruct (lstrip_head s) as [-> | [c [s' [-> Hc]]]]; [reflexivity|].
  rewrite rstrip_cons by exact Hc. simpl. rewrite Hc. rewrite <- rstrip_cons by exact Hc.
  apply rstrip_idem.
Qed.

Lemma body_str_stripped (b : json) (k s : string) : body_str b k = Ok s -> py_strip s = s.
Proof.
  unfold body_str. cbv [bind]. destruct (py_get b k (JStr "")) as [v|x]; [|discriminate].
  destruct (if json_truthy v then v else JStr "") as [| | | |s'| |]; try discriminate.
  intros [= <-]. apply py_strip_idem.
Qed.

End StripLemmas.

Module CustomLemmas.
Import Routes Custom StoreLemmas.

Lemma cmax_id_ge (rows : list crow) (r : crow) : In r rows -> (c_id r <= cmax_id rows)%Z.
Proof.
  induction rows as [|r' rows IH]; simpl; [contradiction|].
  intros [<-|H]; [lia | specialize (IH H); lia].
Qed.

Lemma find_name_none (rows : list crow) (n : string) :
  find_name rows n = None -> filter (fun r => String.eqb (c_name r) n) rows = [] /\
  ~ In n (map c_name rows).
Proof.
  unfold find_name. induction rows as [|r rows IH]; simpl; [auto|].
  destruct (String.eqb (c_name r) n) eqn:E; [discriminate|].
  intro H. destruct (IH H) as [H1 H2]. split; [exact H1|].
  intros [Hr|Hr]; [|exact (H2 Hr)]. subst n. rewrite String.eqb_refl in E. discriminate.
Qed.

Lemma find_name_some (rows : list crow) (n : string) (r : crow) :
  NoDup (map c_name rows) -> find_name rows n = Some r ->
  c_name r = n /\ filter (fun x => String.eqb (c_name x) n) rows = [r].
Proof.
  unfold find_name. induction rows as [|x rows IH]; simpl; [discriminate|].
  intros Hnd. inversion Hnd as [|? ? Hx Hnd']; subst.
  destruct (String.eqb (c_name x) n) eqn:E.
  - intros [= <-]. apply String.eqb_eq in E. split; [exact E|].
    f_equal. apply (find_name_none rows n).
    destruct (find_name rows n) eqn:F; [|reflexivity].
    exfalso. apply Hx. rewrite E. unfold find_name in F.
    apply find_some in F as [Hin Hc]. apply String.eqb_eq in Hc. rewrite <- Hc.
    apply in_map, Hin.
  - intro H. exact (IH Hnd' H).
Qed.

Lemma find_name_app_new (rows : list crow) (r : crow) (n : string) :
  find_name rows n = None -> c_name r = n -> find_name (rows ++ [r]) n = Some r.
Proof.
  unfold find_name. intros H Hn. induction rows as [|x rows IH]; simpl in *.
  - rewrite Hn, String.eqb_refl. reflexivity.
  - destruct (String.eqb (c_name x) n); [discriminate | exact (IH H)].
Qed.

Lemma map_names_update (rows : list crow) (n f : string) :
  map c_name (map (fun r => if String.eqb (c_name r) n
                            then mkCRow (c_id r) (c_name r) f (c_created r) else r) rows) =
  map c_name rows.
Proof. induction rows as [|r rows IH]; simpl; [|destruct (String.eqb _ _)]; simpl; f_equal; auto. Qed.

Lemma map_ids_update (rows : list crow) (n f : string) :
  map c_id (map (fun r => if String.eqb (c_name r) n
                          then mkCRow (c_id r) (c_name r) f (c_created r) else r) rows) =
  map c_id rows.
Proof. induction rows as [|r rows IH]; simpl; [|destruct (String.eqb _ _)]; simpl; f_equal; auto. Qed.

Lemma filter_update_same (rows : list crow) (n f : string) :
  filter (fun r => String.eqb (c_name r) n)
    (map (fun r => if String.eqb (c_name r) n
                   then mkCRow (c_id r) (c_name r) f (c_created r) else r) rows) =
  map (fun r => mkCRow (c_id r) (c_name r) f (c_created r))
    (filter (fun r => String.eqb (c_name r) n) rows).
Proof.
  induction rows as [|r rows IH]; simpl; [reflexivity|].
  destruct (String.eqb (c_name r) n) eqn:E; simpl; rewrite ?E, IH; reflexivity.
Qed.

Lemma filter_update_other (rows : list crow) (n f : string) :
  filter (fun r => negb (String.eqb (c_name r) n))
    (map (fun r => if String.eqb (c_name r) n
                   then mkCRow (c_id r) (c_name r) f (c_created r) else r) rows) =
  filter (fun r => negb (String.eqb (c_name r) n)) rows.
Proof.
  induction rows as [|r rows IH]; simpl; [reflexivity|].
  destruct (String.eqb (c_name r) n) eqn:E; simpl; rewrite ?E, IH; reflexivity.
Qed.

Lemma find_name_update (rows : list crow) (n f : string) (r : crow) :
  find_name rows n = Some r ->
  find_name (map (fun r => if String.eqb (c_name r) n
                           then mkCRow (c_id r) (c_name r) f (c_created r) else r) rows) n =
  Some (mkCRow (c_id r) (c_name r) f (c_created r)).
Proof.
  unfold find_name. induction rows as [|x rows IH]; simpl; [discriminate|].
  destruct (String.eqb (c_name x) n) eqn:E; simpl; rewrite ?E.
  - intros [= <-]. reflexivity.
  - exact IH.
Qed.

Lemma forall_update (rows : list crow) (n f : string) (P : Z -> Prop) :
  Forall (fun r => P (c_id r)) rows ->
  Forall (fun r => P (c_id r))
    (map (fun r => if String.eqb (c_name r) n
                   then mkCRow (c_id r) (c_name r) f (c_created r) else r) rows).
Proof.
  intro H. apply Forall_map. eapply Forall_impl; [|exact H].
  intros r Hr. simpl. destruct (String.eqb _ _); exact Hr.
Qed.

(** The row [upsert_custom_indicator] leaves under the stripped name, what it
    returns, and the invariant. *)
Lemma upsert_spec (tbl : ctable) (now name formula : string) :
  ctable_ok tbl ->
  exists tbl' i c,
    upsert_custom_indicator tbl now name formula = Ok (tbl', (i, py_strip name, py_strip formula)) /\
    ctable_ok tbl' /\
    filter (fun r => String.eqb (c_name r) (py_strip name)) (crows tbl') =
      [mkCRow i (py_strip name) (py_strip formula) c] /\
    filter (fun r => negb (String.eqb (c_name r) (py_strip name))) (crows tbl') =
      filter (fun r => negb (String.eqb (c_name r) (py_strip name))) (crows tbl) /\
    match find_name (crows tbl) (py_strip name) with
    | Some r => i = c_id r /\ c = c_created r
    | None => c = now /\ Forall (fun r => (c_id r < i)%Z) (crows tbl)
    end.
Proof.
  intros [Hnd [Hss Hle]].
  set (n := py_strip name). set (f := py_strip formula).
  set (new_id := (Z.max (cseq tbl) (cmax_id (crows tbl)) + 1)%Z).
  assert (Hlt : Forall (fun r => (c_id r < new_id)%Z) (crows tbl)).
  { apply Forall_forall. intros r Hr. pose proof (cmax_id_ge _ _ Hr). unfold new_id. lia. }
  unfold upsert_custom_indicator. fold n f new_id.
  destruct (find_name (crows tbl) n) as [r|] eqn:Hf.
  - destruct (find_name_some _ _ _ Hnd Hf) as [Hn Hfl].
    rewrite (find_name_update _ _ f _ Hf). simpl.
    exists (mkCTable (map (fun r => if String.eqb (c_name r) n
                                     then mkCRow (c_id r) (c_name r) f (c_created r) else r)
                          (crows tbl)) new_id), (c_id r), (c_created r).
    rewrite Hn. split; [reflexivity|]. split; [|split; [|split; [|auto]]].
    + unfold ctable_ok. cbn [crows cseq].
      rewrite map_names_update, map_ids_update. split; [exact Hnd|]. split; [exact Hss|].
      apply (forall_update _ n f (fun z => (z <= new_id)%Z)).
      refine (Forall_impl _ _ Hlt). intros x Hx. simpl. lia.
    + cbn [crows]. rewrite filter_update_same, Hfl. simpl. rewrite Hn. reflexivity.
    + cbn [crows]. apply filter_update_other.
  - destruct (find_name_none _ _ Hf) as [Hfl Hni].
    rewrite (find_name_app_new _ (mkCRow new_id n f now) n Hf eq_refl). simpl.
    exists (mkCTable (crows tbl ++ [mkCRow new_id n f now])%list new_id), new_id, now.
    split; [reflexivity|]. split; [|split; [|split; [|auto]]].
    + unfold ctable_ok. cbn [crows cseq]. rewrite !map_app. simpl.
      split; [|split].
      * apply NoDup_app; [exact Hnd | repeat constructor; simpl; tauto |].
        intros x Hx [Hx'|[]]. subst x. exact (Hni Hx).
      * apply strongly_sorted_snoc; [exact Hss|]. apply Forall_map. exact Hlt.
      * apply Forall_app. split; [|repeat constructor; simpl; lia].
        refine (Forall_impl _ _ Hlt). intros x Hx. simpl. lia.
    + cbn [crows]. rewrite filter_app, Hfl. simpl. rewrite String.eqb_refl. reflexivity.
    + cbn [crows]. rewrite filter_app. simpl. rewrite String.eqb_refl. simpl. apply app_nil_r.
Qed.

Lemma rowcount_existsb (rows : list crow) (i : Z) :
  Nat.ltb 0 (List.length rows - List.length (filter (fun r => negb (Z.eqb (c_id r) i)) rows)) =
  existsb (fun r => Z.eqb (c_id r) i) rows.
Proof.
  induction rows as [|r rows IH]; [reflexivity|].
  pose proof (filter_length_le (fun r => negb (Z.eqb (c_id r) i)) rows) as Hle.
  cbn [filter existsb]. destruct (Z.eqb (c_id r) i); cbn [negb orb].
  - apply Nat.ltb_lt. cbn [List.length]. lia.
  - exact IH.
Qed.

Lemma filter_sorted_ids (rows : list crow) (p : crow -> bool) :
  StronglySorted Z.lt (map c_id rows) -> StronglySorted Z.lt (map c_id (filter p rows)).
Proof.
  induction rows as [|r rows IH]; simpl; [auto|]. intro H.
  apply StronglySorted_inv in H as [H Hf]. destruct (p r); simpl; [|exact (IH H)].
  constructor; [exact (IH H)|]. apply Forall_map. rewrite Forall_map in Hf.
  apply Forall_forall. intros x Hx. apply filter_In in Hx as [Hx _].
  rewrite Forall_forall in Hf. exact (Hf x Hx).
Qed.

Lemma filter_nodup_names (rows : list crow) (p : crow -> bool) :
  NoDup (map c_name rows) -> NoDup (map c_name (filter p rows)).
Proof.
  induction rows as [|r rows IH]; simpl; [auto|]. intro H.
  inversion H as [|? ? Hx Hnd]; subst. destruct (p r); simpl; [|exact (IH Hnd)].
  constructor; [|exact (IH Hnd)]. intro Hin. apply Hx.
  apply in_map_iff in Hin as [y [Hy Hin]]. apply filter_In in Hin as [Hin _].
  rewrite <- Hy. apply in_map, Hin.
Qed.

End CustomLemmas.

Module CustomExtras.
Import Future Routes Custom StripLemmas CustomLemmas.
Open Scope string_scope.

(** X21: database.py upsert_custom_indicator on a table its constraints allow:
    it never raises; it returns the row stored under the stripped name, with
    the stripped formula; that name then has exactly one row, every row of
    another name is untouched, and the constraints still hold. An existing
    name keeps its id and creation time; a new name gets an id above every
    id in the table. *)
Theorem upsert_custom_indicator_contract (tbl : ctable) (now name formula : string) :
  ctable_ok tbl ->
  exists tbl' i c,
    upsert_custom_indicator tbl now name formula = Ok (tbl', (i, py_strip name, py_strip formula)) /\
    ctable_ok tbl' /\
    filter (fun r => String.eqb (c_name r) (py_strip name)) (list_custom_indicators tbl') =
      [mkCRow i (py_strip name) (py_strip formula) c] /\
    filter (fun r => negb (String.eqb (c_name r) (py_strip name))) (list_custom_indicators tbl') =
      filter (fun r => negb (String.eqb (c_name r) (py_strip name))) (list_custom_indicators tbl) /\
    match find_name (crows tbl) (py_strip name) with
    | Some r => i = c_id r /\ c = c_created r
    | None => c = now /\ Forall (fun r => (c_id r < i)%Z) (crows tbl)
    end.
Proof. exact (upsert_spec tbl now name formula). Qed.

Definition pcr_table : ctable :=
  mkCTable [mkCRow 1 "pcr" "pe_oi / ce_oi" "2026-03-02 09:15:00";
            mkCRow 3 "net" "pe_oi - ce_oi" "2026-03-02 09:20:00"] 3.

Lemma upsert_custom_indicator_contract_witness :
  exists tbl' i c,
    upsert_custom_indicator pcr_table "2026-03-03 10:00:00" "  pcr " "ce_oi / pe_oi" =
      Ok (tbl', (i, "pcr", "ce_oi / pe_oi")) /\
    ctable_ok tbl' /\ i = 1%Z /\ c = "2026-03-02 09:15:00".
Proof.
  assert (Hok : ctable_ok pcr_table).
  { unfold ctable_ok. simpl. split; [|split].
    - repeat constructor; simpl; intuition discriminate.
    - repeat constructor; lia.
    - repeat constructor; simpl; lia. }
  destruct (upsert_custom_indicator_contract pcr_table "2026-03-03 10:00:00" "  pcr " "ce_oi / pe_oi" Hok)
    as [tbl' [i [c [H1 [H2 [_ [_ H5]]]]]]].
  exists tbl', i, c. split; [exact H1|]. split; [exact H2|]. exact H5.
Defined.



Definition pcr_body : option json :=
  Some (JObj [("name", JStr " pcr"); ("formula", JStr "ce_oi / pe_oi ")]).


End CustomExtras.
